(** * Exchange Rate Monitor: the rate acquisition core of [app.py]

    A shallow embedding of the data-handling part of [app.py]: the two bank
    quote scrapers of [BankRateFetcher] ([get_boc_rates], [get_cmb_rates]),
    the time-series fetch [get_history] and the trend figures computed for
    the metric row ([current_price], [prev_price], [delta],
    [delta_percent]).

    What the program obtains from the network through library calls
    ([requests.get], [BeautifulSoup], [response.json], [yfinance]) is an
    input of the model: a call either returns a value or raises.  Python
    exceptions are explicit ([result]), Python [str] is a sequence of code
    points, and the prices are IEEE binary64 numbers, as in the program. *)

From Stdlib Require Import ZArith NArith List String Ascii Bool Lia.
From Stdlib Require Import Floats Uint63.
From stdpp Require Import base option list gmap fin_maps.
Import ListNotations.

Set Warnings "-register-all".
Local Open Scope Z_scope.

(** ** Python strings *)

Module PyStr.

(** A Python [str]: its code points. *)
Definition pystr := list N.

(** An ASCII literal of the source. *)
Definition py (s : string) : pystr := List.map N_of_ascii (list_ascii_of_string s).

(** [str.isspace] on one character: the code points that [str.strip()]
    removes. *)
Definition isspace (c : N) : bool :=
  (((0x9 <=? c) && (c <=? 0xD)) || ((0x1C <=? c) && (c <=? 0x20))
   || (c =? 0x85) || (c =? 0xA0) || (c =? 0x1680)
   || ((0x2000 <=? c) && (c <=? 0x200A))
   || (c =? 0x2028) || (c =? 0x2029) || (c =? 0x202F) || (c =? 0x205F)
   || (c =? 0x3000))%N.

Fixpoint lstrip (s : pystr) : pystr :=
  match s with
  | c :: s' => if isspace c then lstrip s' else s
  | [] => []
  end.

Definition rstrip (s : pystr) : pystr := rev (lstrip (rev s)).

(** [s.strip()] *)
Definition strip (s : pystr) : pystr := rstrip (lstrip s).

(** [s.startswith(p)] *)
Fixpoint startswith (p s : pystr) : bool :=
  match p, s with
  | [], _ => true
  | _ :: _, [] => false
  | a :: p', b :: s' => (a =? b)%N && startswith p' s'
  end.

(** [needle in hay] on two strings: substring search. *)
Fixpoint contains (needle hay : pystr) : bool :=
  startswith needle hay ||
  match hay with
  | [] => false
  | _ :: hay' => contains needle hay'
  end.

(** Truth value of a string: [''] is false. *)
Definition str_truthy (s : pystr) : bool :=
  match s with [] => false | _ :: _ => true end.

End PyStr.
Export PyStr.

(** ** Exceptions and results *)

Inductive exn : Type :=
| TypeError
| AttributeError
| IndexError
| KeyError
| ZeroDivisionError
| LibraryError (name : string).
(** [LibraryError] stands for whatever a library call raises:
    [requests.exceptions.Timeout], [ConnectionError], [JSONDecodeError],
    a rate-limit error of the time-series client, ... *)

Inductive result (A : Type) : Type :=
| Returns (a : A)
| Raises (e : exn).
Arguments Returns {A} a.
Arguments Raises {A} e.

#[export] Instance result_ret : MRet result := fun A a => Returns a.
#[export] Instance result_bind : MBind result := fun A B k c =>
  match c with
  | Returns a => k a
  | Raises e => Raises e
  end.

(** [try: body / except: handler] with a bare [except], which catches
    every exception. *)
Definition try_except {A} (body : result A) (handler : result A) : result A :=
  match body with
  | Returns a => Returns a
  | Raises _ => handler
  end.

(** [len(l)] *)
Definition len {A} (l : list A) : Z := Z.of_nat (length l).

(** [l[i]] on a Python list: a negative index counts from the end, an index
    out of range raises [IndexError]. *)
Definition getitem {A} (l : list A) (i : Z) : result A :=
  let j := if i <? 0 then i + len l else i in
  if j <? 0 then Raises IndexError
  else match l !! Z.to_nat j with
       | Some a => Returns a
       | None => Raises IndexError
       end.

(** ** Python values *)

(** The objects [json.loads] builds, which are also the objects a quote
    holds.  A [dict] keeps its items in insertion order. *)
Inductive value : Type :=
| VNone
| VBool (b : bool)
| VInt (z : Z)
| VFloat (f : float)
| VStr (s : pystr)
| VList (l : list value)
| VDict (items : list (pystr * value)).

(** The dict a provider returns:
    [{'spot_sell': ..., 'cash_sell': ...}]. *)
Record QuotePair : Type := { spot_sell : value; cash_sell : value }.

(** ** The parsed HTML document *)

(** The tree [BeautifulSoup(text, 'html.parser')] builds.  [Comment] stands
    for the string nodes that [.text] leaves out (comments, declarations,
    script and style content). *)
Inductive PageElement : Type :=
| NavigableString (s : pystr)
| Comment (s : pystr)
| Tag (name : pystr) (contents : list PageElement).

(** ** What the network answers *)

(** A [requests.Response], seen through the three things the program reads
    from it: [status_code], the tree parsed from [text] and the outcome of
    [json()]. *)
Record Response : Type := {
  status_code : Z;
  html : list PageElement;
  json : result value
}.

(** One row of the frame [history()] returns: its index and its [Close]. *)
Record Sample : Type := { timestamp : Z; Close : float }.

Definition DataFrame := list Sample.

Record World : Type := {
  requests_get : pystr -> result Response;
  yf_history : pystr -> pystr -> pystr -> result DataFrame
}.

(** ** bs4 *)

Module Bs4.

(** [element.descendants]: every node below [e], in document order. *)
Fixpoint descendants (e : PageElement) : list PageElement :=
  match e with
  | Tag _ contents => flat_map (fun c => c :: descendants c) contents
  | _ => []
  end.

Definition is_tag (name : pystr) (e : PageElement) : bool :=
  match e with
  | Tag n _ => bool_decide (n = name)
  | _ => false
  end.

(** [element.find_all(name)] *)
Definition find_all (name : pystr) (e : PageElement) : list PageElement :=
  List.filter (is_tag name) (descendants e).

Definition own_string (e : PageElement) : pystr :=
  match e with
  | NavigableString s => s
  | _ => []
  end.

(** [element.text] *)
Definition text (e : PageElement) : pystr :=
  match e with
  | Tag _ _ => flat_map own_string (descendants e)
  | _ => own_string e
  end.

(** [BeautifulSoup(response.text, 'html.parser')] *)
Definition BeautifulSoup (r : Response) : PageElement :=
  Tag (py "[document]") (html r).

End Bs4.
Export Bs4.

(** ** BankRateFetcher *)

Module BankRateFetcher.

(** The code points of 欧元, 美元, 港币, 英镑 and 日元. *)
Definition currency_map : gmap pystr pystr :=
  <[py "EUR" := [0x6B27; 0x5143]%N]>
  (<[py "USD" := [0x7F8E; 0x5143]%N]>
  (<[py "HKD" := [0x6E2F; 0x5E01]%N]>
  (<[py "GBP" := [0x82F1; 0x9551]%N]>
  (<[py "JPY" := [0x65E5; 0x5143]%N]> ∅)))).

Definition boc_url : pystr := py "https://www.boc.cn/sourcedb/whpj/".
Definition cmb_url : pystr := py "https://fx.cmbchina.com/api/v1/fx/rate".

(** Line 45: [len(cols) > 0 and target_name in cols[0].text.strip()]. *)
Definition boc_row_hit (target_name : pystr) (cols : list PageElement) : result bool :=
  if 0 <? len cols then
    c0 ← getitem cols 0;
    mret (contains target_name (strip (text c0)))
  else mret false.

(** Line 46: the dict returned for a row. *)
Definition boc_row_quote (cols : list PageElement) : result QuotePair :=
  c3 ← getitem cols 3;
  c4 ← getitem cols 4;
  mret {| spot_sell := VStr (strip (text c3)); cash_sell := VStr (strip (text c4)) |}.

(** The loop of lines 43-46 over the rows of one table: [Some q] when it
    returns [q], [None] when it runs to its end. *)
Fixpoint boc_scan_rows (target_name : pystr) (rows : list PageElement)
  : result (option QuotePair) :=
  match rows with
  | [] => mret None
  | row :: rows' =>
      let cols := find_all (py "td") row in
      hit ← boc_row_hit target_name cols;
      if hit : bool then q ← boc_row_quote cols; mret (Some q)
      else boc_scan_rows target_name rows'
  end.

(** The loop of lines 41-46 over the tables. *)
Fixpoint boc_scan_tables (target_name : pystr) (tables : list PageElement)
  : result (option QuotePair) :=
  match tables with
  | [] => mret None
  | table :: tables' =>
      let rows := find_all (py "tr") table in
      r ← boc_scan_rows target_name rows;
      match r with
      | Some q => mret (Some q)
      | None => boc_scan_tables target_name tables'
      end
  end.

Definition get_boc_rates (w : World) (currency_code : pystr)
  : result (option QuotePair) :=
  try_except
    (response ← requests_get w boc_url;
     let soup := BeautifulSoup response in
     match currency_map !! currency_code with
     | None => mret None
     | Some target_name =>
         if negb (str_truthy target_name) then mret None
         else
           let tables := find_all (py "table") soup in
           boc_scan_tables target_name tables
     end)
    (mret None).

(** *** Operations of lines 62-65 on parsed JSON *)

(** [x == v] for [x] the name looked for: [None] stands for Python's
    [None], [Some s] for the string [s]. *)
Definition value_is (x : option pystr) (v : value) : bool :=
  match x, v with
  | None, VNone => true
  | Some s, VStr s' => bool_decide (s = s')
  | _, _ => false
  end.

(** [d[k]] as [dict] finds it. *)
Fixpoint dict_lookup (k : pystr) (items : list (pystr * value)) : option value :=
  match items with
  | [] => None
  | (k', v) :: items' => if bool_decide (k' = k) then Some v else dict_lookup k items'
  end.

(** [x in container]: substring search in a string (a left operand that is
    not a string raises), equality with an element of a list, key
    membership in a dict; any other container raises. *)
Definition py_in (x : option pystr) (container : value) : result bool :=
  match container with
  | VStr hay =>
      match x with
      | Some needle => mret (contains needle hay)
      | None => Raises TypeError
      end
  | VList l => mret (existsb (value_is x) l)
  | VDict items =>
      match x with
      | Some k => mret (bool_decide (is_Some (dict_lookup k items)))
      | None => mret false
      end
  | _ => Raises TypeError
  end.

(** [container[k]] for a string [k]. *)
Definition subscript (container : value) (k : pystr) : result value :=
  match container with
  | VDict items =>
      match dict_lookup k items with
      | Some v => mret v
      | None => Raises KeyError
      end
  | _ => Raises TypeError
  end.

(** What [for item in v] goes through. *)
Definition iterate (v : value) : result (list value) :=
  match v with
  | VList l => mret l
  | VDict items => mret (List.map (fun kv => VStr (fst kv)) items)
  | VStr s => mret (List.map (fun c => VStr [c]) s)
  | _ => Raises TypeError
  end.

(** [item.get(k, default)]: only a dict has the method. *)
Definition get_method (item : value) (k : pystr) (dflt : value) : result value :=
  match item with
  | VDict items => mret (default dflt (dict_lookup k items))
  | _ => Raises AttributeError
  end.

Definition NA : value := VStr (py "N/A").

(** Line 64: [target_name in item.get('ccyNbr', '')]. *)
Definition cmb_item_hit (target_name : option pystr) (item : value) : result bool :=
  name ← get_method item (py "ccyNbr") (VStr []);
  py_in target_name name.

(** Line 65: the dict returned for a record. *)
Definition cmb_item_quote (item : value) : result QuotePair :=
  spot ← get_method item (py "rthOfr") NA;
  cash ← get_method item (py "rtcOfr") NA;
  mret {| spot_sell := spot; cash_sell := cash |}.

(** The loop of lines 63-65: [Some q] when it returns [q], [None] when it
    runs to its end. *)
Fixpoint cmb_scan (target_name : option pystr) (items : list value)
  : result (option QuotePair) :=
  match items with
  | [] => mret None
  | item :: items' =>
      hit ← cmb_item_hit target_name item;
      if hit : bool then q ← cmb_item_quote item; mret (Some q)
      else cmb_scan target_name items'
  end.

Definition get_cmb_rates (w : World) (currency_code : pystr)
  : result (option QuotePair) :=
  try_except
    (response ← requests_get w cmb_url;
     if negb (status_code response =? 200) then mret None
     else
       data ← json response;
       let target_name := currency_map !! currency_code in
       has_body ← py_in (Some (py "body")) data;
       if has_body : bool then
         body ← subscript data (py "body");
         items ← iterate body;
         cmb_scan target_name items
       else mret None)
    (mret None).

End BankRateFetcher.
Export BankRateFetcher.

(** ** The trend figures (lines 120-123) *)

Module Trend.

(** The numbers of lines 120-123: the Python int of a literal ([0], [100])
    or a [numpy.float64] read from the [Close] column. *)
Inductive number : Type :=
| Int (z : Z)
| Float64 (f : float).

(** Conversion of an int operand that meets a float; exact below [2^53],
    and the ints of these lines are [0] and [100]. *)
Definition float_of_int (z : Z) : float :=
  if z <? 0 then PrimFloat.opp (PrimFloat.of_uint63 (Uint63.of_Z (- z)))
  else PrimFloat.of_uint63 (Uint63.of_Z z).

Definition to_float (a : number) : float :=
  match a with
  | Int z => float_of_int z
  | Float64 f => f
  end.

(** [a - b] *)
Definition sub (a b : number) : number :=
  match a, b with
  | Int x, Int y => Int (x - y)
  | _, _ => Float64 (PrimFloat.sub (to_float a) (to_float b))
  end.

(** [a * b] *)
Definition mul (a b : number) : number :=
  match a, b with
  | Int x, Int y => Int (x * y)
  | _, _ => Float64 (PrimFloat.mul (to_float a) (to_float b))
  end.

(** [a / b]: between two Python ints a zero divisor raises; as soon as a
    [numpy.float64] takes part the quotient is the IEEE one (infinite or
    NaN for a zero divisor). *)
Definition truediv (a b : number) : result number :=
  match a, b with
  | Int x, Int y =>
      if y =? 0 then Raises ZeroDivisionError
      else mret (Float64 (PrimFloat.div (float_of_int x) (float_of_int y)))
  | _, _ => mret (Float64 (PrimFloat.div (to_float a) (to_float b)))
  end.

(** [a != 0] *)
Definition ne_zero (a : number) : bool :=
  match a with
  | Int z => negb (z =? 0)
  | Float64 f => negb (PrimFloat.eqb f 0%float)
  end.

(** [hist_data.empty] *)
Definition empty (hist_data : DataFrame) : bool :=
  match hist_data with
  | [] => true
  | _ :: _ => false
  end.

(** [hist_data['Close'].iloc[i]] *)
Definition Close_iloc (hist_data : DataFrame) (i : Z) : result number :=
  s ← getitem hist_data i;
  mret (Float64 (Close s)).

Record Trend : Type := {
  current_price : number;
  prev_price : number;
  delta : number;
  delta_percent : number
}.

(** Lines 120-123. *)
Definition compute_trend (hist_data : DataFrame) : result Trend :=
  current_price ← (if negb (empty hist_data) then Close_iloc hist_data (-1)
                   else mret (Int 0));
  prev_price ← (if negb (empty hist_data) then Close_iloc hist_data 0
                else mret (Int 0));
  let delta := sub current_price prev_price in
  delta_percent ← (if ne_zero prev_price then
                     q ← truediv delta prev_price;
                     mret (mul q (Int 100))
                   else mret (Int 0));
  mret {| current_price := current_price; prev_price := prev_price;
          delta := delta; delta_percent := delta_percent |}.

End Trend.
Export Trend.

(** ** The page script: live data (lines 74-123) *)

Module Page.

(** [currencies]: code to ([yf], [name]). *)
Definition currencies : gmap pystr (pystr * pystr) :=
  <[py "EUR" := (py "EURCNY=X", py "Euro")]>
  (<[py "USD" := (py "CNY=X", py "US Dollar")]>
  (<[py "HKD" := (py "HKDCNY=X", py "Hong Kong Dollar")]>
  (<[py "GBP" := (py "GBPCNY=X", py "British Pound")]>
  (<[py "JPY" := (py "JPYCNY=X", py "Japanese Yen")]> ∅)))).

(** [time_ranges]: label to ([period], [interval]). *)
Definition time_ranges : gmap pystr (pystr * pystr) :=
  <[py "1h" := (py "1d", py "1m")]>
  (<[py "24h" := (py "5d", py "1m")]>
  (<[py "48h" := (py "5d", py "2m")]>
  (<[py "7d" := (py "1mo", py "15m")]>
  (<[py "1m" := (py "3mo", py "60m")]> ∅)))).

(** [d[k]] on one of the two tables. *)
Definition table_getitem {V} (d : gmap pystr V) (k : pystr) : result V :=
  match d !! k with
  | Some v => mret v
  | None => Raises KeyError
  end.

(** Lines 103-106.  The 60-second cache of the decorator only decides
    whether the call below is made again; an exception is not cached. *)
Definition get_history (w : World) (ticker period interval : pystr)
  : result DataFrame :=
  data ← yf_history w ticker period interval;
  mret data.

(** What the script holds once line 123 is reached. *)
Record Snapshot : Type := {
  hist_data : DataFrame;
  boc_rate : option QuotePair;
  cmb_rate : option QuotePair;
  trend : Trend
}.

(** Lines 83 and 109-123 for the radio choices [selected_currency] and
    [selected_range], in a run that gets to line 100 (with the auto-refresh
    box ticked, line 97 restarts the script before that). *)
Definition build_snapshot (w : World) (selected_currency selected_range : pystr)
  : result Snapshot :=
  currency_info ← table_getitem currencies selected_currency;
  let ticker_symbol := fst currency_info in
  range ← table_getitem time_ranges selected_range;
  hist_data ← get_history w ticker_symbol (fst range) (snd range);
  boc_rate ← get_boc_rates w selected_currency;
  cmb_rate ← get_cmb_rates w selected_currency;
  trend ← compute_trend hist_data;
  mret {| hist_data := hist_data; boc_rate := boc_rate; cmb_rate := cmb_rate;
          trend := trend |}.

End Page.
Export Page.

(** * Vocabulary of the properties *)

Module Vocabulary.

(** A name that neither starts nor ends with a blank. *)
Definition solid (name : pystr) : bool :=
  match name, rev name with
  | c :: _, c' :: _ => negb (isspace c) && negb (isspace c')
  | _, _ => false
  end.

(** The rows in the order lines 41-43 go through them: the tables of the
    document in document order, and the rows of each in document order. *)
Definition boc_rows (soup : PageElement) : list PageElement :=
  flat_map (find_all (py "tr")) (find_all (py "table") soup).

(** The rows of the document that lie in a table, each once, in document
    order: all the rows below an outermost table, table after table. *)
Fixpoint table_rows (e : PageElement) : list PageElement :=
  match e with
  | Tag name contents =>
      if bool_decide (name = py "table") then find_all (py "tr") e
      else flat_map table_rows contents
  | _ => []
  end.

(** What the two loops go through below the nodes [contents]. *)
Definition scanned (contents : list PageElement) : list PageElement :=
  flat_map (find_all (py "tr"))
           (List.filter (is_tag (py "table"))
                        (flat_map (fun c => c :: descendants c) contents)).

(** The first cell of the row contains the name. *)
Definition first_cell_contains (name : pystr) (row : PageElement) : bool :=
  match find_all (py "td") row with
  | c0 :: _ => contains name (text c0)
  | [] => false
  end.

(** The quote read from a row that has a 4th and a 5th cell. *)
Definition row_quote (row : PageElement) : option QuotePair :=
  let cols := find_all (py "td") row in
  match cols !! 3%nat, cols !! 4%nat with
  | Some c3, Some c4 =>
      Some {| spot_sell := VStr (strip (text c3)); cash_sell := VStr (strip (text c4)) |}
  | _, _ => None
  end.

(** A record of the JSON list whose name field is a list. *)
Definition name_is_list (item : value) : bool :=
  match item with
  | VDict rec =>
      match dict_lookup (py "ccyNbr") rec with
      | Some (VList _) => true
      | _ => false
      end
  | _ => false
  end.

(** The parsed JSON is a dict that has the key [body]. *)
Definition has_body_key (data : value) : bool :=
  match data with
  | VDict items => bool_decide (is_Some (dict_lookup (py "body") items))
  | _ => false
  end.

(** The records line 63 iterates over, when the program gets that far. *)
Definition cmb_records (w : World) : result (list value) :=
  response ← requests_get w cmb_url;
  data ← json response;
  body ← subscript data (py "body");
  iterate body.

End Vocabulary.
Export Vocabulary.

(** * Sample inputs *)

Module Samples.

(** The two samples of the examples. *)
Definition sample (t : Z) (price : float) : Sample :=
  {| timestamp := t; Close := price |}.

Definition euro : pystr := [0x6B27; 0x5143]%N.
Definition dollar : pystr := [0x7F8E; 0x5143]%N.

Definition td (s : pystr) : PageElement := Tag (py "td") [NavigableString s].
Definition th (s : pystr) : PageElement := Tag (py "th") [NavigableString s].
Definition tr (cells : list PageElement) : PageElement := Tag (py "tr") cells.

Definition header_row : PageElement :=
  tr [th (py "Currency"); th (py "Buy"); th (py "Cash buy"); th (py "Sell");
      th (py "Cash sell")].

Definition dollar_row : PageElement :=
  tr [td dollar; td (py "707.10"); td (py "701.35"); td (py "710.07");
      td (py "710.07")].

(** The cells of this row carry blanks around the figures. *)
Definition euro_row : PageElement :=
  tr [td (py " " ++ euro ++ py " "); td (py "821.66"); td (py "796.13");
      td (py " 827.72 "); td (py " 830.39 ")].


(** A row of one cell only. *)
Definition short_euro_row : PageElement := tr [td euro].

(** A layout row whose second cell holds a table of its own. *)
Definition layout_row : PageElement :=
  tr [td (py "rates"); Tag (py "td") [Tag (py "table") [dollar_row; euro_row]]].

Definition page (rows : list PageElement) : Response :=
  {| status_code := 200;
     html := [Tag (py "html") [Tag (py "body") [Tag (py "table") rows]]];
     json := Raises (LibraryError "JSONDecodeError") |}.

Definition api (data : value) : Response :=
  {| status_code := 200; html := [NavigableString (py "{}")]; json := Returns data |}.

(** A record named 欧元 with no rate fields. *)
Definition euro_record_bare : list (pystr * value) := [(py "ccyNbr", VStr euro)].

Definition null_name_record : value :=
  VDict [(py "ccyNbr", VNone); (py "rthOfr", VStr (py "710.2"));
         (py "rtcOfr", VStr (py "710.2"))].

Definition dollar_record : value :=
  VDict [(py "ccyNbr", VStr dollar); (py "rthOfr", VStr (py "710.2"));
         (py "rtcOfr", VStr (py "710.2"))].

(** A record whose name is the list [[null]]. *)
Definition list_name_record : value :=
  VDict [(py "ccyNbr", VList [VNone]); (py "rthOfr", VStr (py "1.0"))].

Definition body_of (records : list value) : value :=
  VDict [(py "returnCode", VStr (py "SUC0000")); (py "body", VList records)].

(** A world whose two bank upstreams answer [boc] and [cmb] and whose
    time-series call answers [hist]. *)
Definition world (boc cmb : result Response) (hist : result DataFrame) : World :=
  {| requests_get := fun url => if bool_decide (url = boc_url) then boc else cmb;
     yf_history := fun _ _ _ => hist |}.

Definition timeout : exn := LibraryError "requests.exceptions.Timeout".

(** The bank page shows [rows], the API times out, no history yet. *)
Definition boc_world (rows : list PageElement) : World :=
  world (Returns (page rows)) (Raises timeout) (Returns []).

(** The API answers [data], the bank page times out, no history yet. *)
Definition cmb_world (data : value) : World :=
  world (Raises timeout) (Returns (api data)) (Returns []).

(** Both banks answer, the time-series call answers [hist]. *)
Definition live_world (hist : result DataFrame) : World :=
  world (Returns (page [header_row; dollar_row; euro_row]))
        (Returns (api (body_of [dollar_record])))
        hist.

Definition connection_error : exn :=
  LibraryError "requests.exceptions.ConnectionError".

End Samples.
Export Samples.

(** ** The page script: refresh, metric texts (lines 94-97, 128-134) *)

Module Display.

(** What [st.rerun()] does to the run: the script is halted there and no
    further statement is executed. *)
Definition rerun : exn := LibraryError "streamlit.RerunException".

(** Lines 83-123 for the state of the Auto Refresh box: with the box
    ticked, lines 96-97 sleep and restart the script. *)
Definition run_page (w : World) (auto_refresh : bool)
    (selected_currency selected_range : pystr) : result Snapshot :=
  _ ← table_getitem currencies selected_currency;
  if auto_refresh then Raises rerun
  else build_snapshot w selected_currency selected_range.

Section Format.

(** How an f-string renders a value: [format(v, '')].  Only its behaviour
    on strings, which it leaves as they are, is used below. *)
Variable format : value -> pystr.

(** Lines 129 and 133: [f"{rate['spot_sell']} / {rate['cash_sell']}" if
    rate else "N/A"].  A dict of two keys is true, [None] is false. *)
Definition bank_val (rate : option QuotePair) : pystr :=
  match rate with
  | Some q => format (spot_sell q) ++ py " / " ++ format (cash_sell q)
  | None => py "N/A"
  end.

End Format.

End Display.
Export Display.

(** * Vocabulary of the further properties *)

Module Answers.

(** A string with no blank at either end. *)
Definition stripped (s : pystr) : bool :=
  match s with [] => true | c :: _ => negb (isspace c) end
  && match rev s with [] => true | c :: _ => negb (isspace c) end.

(** What the Bank of China document says about a currency name. *)
Definition boc_answer (name : pystr) (soup : PageElement) : option QuotePair :=
  match List.find (first_cell_contains name) (table_rows soup) with
  | Some row => row_quote row
  | None => None
  end.

(** The name field of a record, as line 64 reads it. *)
Definition record_name (rec : list (pystr * value)) : value :=
  default (VStr []) (dict_lookup (py "ccyNbr") rec).

(** The dict line 65 builds from a record. *)
Definition record_quote (rec : list (pystr * value)) : QuotePair :=
  {| spot_sell := default NA (dict_lookup (py "rthOfr") rec);
     cash_sell := default NA (dict_lookup (py "rtcOfr") rec) |}.

(** A JSON object whose name field is a string, or missing. *)
Definition named_record (item : value) : bool :=
  match item with
  | VDict rec => match record_name rec with VStr _ => true | _ => false end
  | _ => false
  end.

(** The name field of the record is a string that contains [name]. *)
Definition record_matches (name : pystr) (item : value) : bool :=
  match item with
  | VDict rec =>
      match record_name rec with
      | VStr s => contains name s
      | _ => false
      end
  | _ => false
  end.

(** What a list of named records says about a currency name. *)
Definition cmb_answer (name : pystr) (records : list value) : option QuotePair :=
  match List.find (record_matches name) records with
  | Some (VDict rec) => Some (record_quote rec)
  | _ => None
  end.

(** An element of the list on which the test of line 64 cannot be made:
    not an object, or an object whose name is null, a boolean or a number. *)
Definition untestable (item : value) : bool :=
  match item with
  | VDict rec =>
      match record_name rec with
      | VNone | VBool _ | VInt _ | VFloat _ => true
      | _ => false
      end
  | _ => true
  end.

(** A [td] element with no [td] element below it. *)
Definition plain_cell (c : PageElement) : bool :=
  is_tag (py "td") c
  && match find_all (py "td") c with [] => true | _ :: _ => false end.

Definition is_list (v : value) : bool :=
  match v with VList _ => true | _ => false end.

End Answers.
Export Answers.

(** * Further sample inputs *)

Module MoreSamples.

(** The same page as [page], served with status 503. *)
Definition error_page (rows : list PageElement) : Response :=
  {| status_code := 503;
     html := [Tag (py "html") [Tag (py "body") [Tag (py "table") rows]]];
     json := Raises (LibraryError "JSONDecodeError") |}.

Definition euro_record : list (pystr * value) :=
  [(py "ccyNbr", VStr (euro ++ py "/CNY")); (py "rthOfr", VStr (py "828.1"));
   (py "rtcOfr", VFloat 830.5)].

(** A row of two cells, the second of which holds a table of three. *)
Definition nested_cells_row : PageElement :=
  tr [td euro;
      Tag (py "td") [Tag (py "table") [tr [td (py "1"); td (py "2"); td (py "3")]]]].

(** An f-string rendering good enough for strings. *)
Definition format_str (v : value) : pystr :=
  match v with VStr s => s | _ => py "?" end.

End MoreSamples.
Export MoreSamples.

(** * Properties *)

(** ** Strings *)

Section Strings.

Lemma startswith_spec (p s : pystr) :
  startswith p s = true <-> exists t, s = p ++ t.
Proof.
  revert s. induction p as [|a p IH]; intros s; simpl.
  - split; eauto.
  - destruct s as [|b s].
    + split; [discriminate | intros [t Ht]; discriminate].
    + rewrite andb_true_iff, N.eqb_eq, IH. split.
      * intros [-> [t ->]]. eauto.
      * intros [t Ht]. injection Ht as -> ->. eauto.
Qed.

Lemma contains_cons (needle : pystr) (c : N) (hay : pystr) :
  contains needle (c :: hay) = startswith needle (c :: hay) || contains needle hay.
Proof. reflexivity. Qed.

Lemma contains_spec (needle hay : pystr) :
  contains needle hay = true <-> exists a b, hay = a ++ needle ++ b.
Proof.
  induction hay as [|c hay IH].
  - simpl. rewrite orb_false_r, startswith_spec. split.
    + intros [t Ht]. exists [], t. exact Ht.
    + intros (a & b & H). destruct a; [|discriminate]. eauto.
  - rewrite contains_cons, orb_true_iff, startswith_spec, IH. split.
    + intros [[t Ht]|(a & b & ->)].
      * exists [], t. exact Ht.
      * exists (c :: a), b. reflexivity.
    + intros (a & b & H). destruct a as [|c' a].
      * left. eauto.
      * right. injection H as _ ->. eauto.
Qed.

Lemma contains_rev (needle hay : pystr) :
  contains (rev needle) (rev hay) = contains needle hay.
Proof.
  apply eq_true_iff_eq. rewrite !contains_spec. split.
  - intros (a & b & H). exists (rev b), (rev a).
    apply (f_equal (@rev N)) in H.
    rewrite rev_involutive, !rev_app_distr, rev_involutive in H.
    rewrite H, <- app_assoc. reflexivity.
  - intros (a & b & ->). exists (rev b), (rev a).
    rewrite !rev_app_distr, <- app_assoc. reflexivity.
Qed.

Lemma contains_lstrip (c : N) (needle hay : pystr) :
  isspace c = false ->
  contains (c :: needle) (lstrip hay) = contains (c :: needle) hay.
Proof.
  intros Hc. induction hay as [|h hay IH]; [reflexivity|].
  simpl lstrip. destruct (isspace h) eqn:Hh; [|reflexivity].
  rewrite IH, contains_cons. simpl startswith.
  destruct (N.eqb_spec c h) as [->|_]; [congruence | reflexivity].
Qed.

Lemma contains_rstrip (needle hay : pystr) :
  solid needle = true -> contains needle (rstrip hay) = contains needle hay.
Proof.
  unfold solid, rstrip. intros H.
  destruct needle as [|c n]; [discriminate|].
  destruct (rev (c :: n)) as [|c' n'] eqn:Hrev; [discriminate|].
  apply andb_true_iff in H as [_ Hc']. apply negb_true_iff in Hc'.
  rewrite <- (contains_rev (c :: n) (rev _)), rev_involutive, Hrev.
  rewrite (contains_lstrip _ _ _ Hc'), <- Hrev. apply contains_rev.
Qed.

(** Stripping the text does not change whether a solid name occurs in it. *)
Lemma contains_strip (needle hay : pystr) :
  solid needle = true -> contains needle (strip hay) = contains needle hay.
Proof.
  intros H. unfold strip. rewrite (contains_rstrip _ _ H).
  unfold solid in H. destruct needle as [|c n]; [discriminate|].
  destruct (rev (c :: n)); [discriminate|].
  apply andb_true_iff in H as [Hc _]. apply negb_true_iff in Hc.
  apply contains_lstrip, Hc.
Qed.

End Strings.

(** ** Python lists *)

Lemma getitem_nat {A} (l : list A) (i : nat) :
  getitem l (Z.of_nat i) =
  match l !! i with Some a => Returns a | None => Raises IndexError end.
Proof.
  unfold getitem.
  assert (H : (Z.of_nat i <? 0) = false) by (apply Z.ltb_ge; lia).
  rewrite H. cbv zeta. rewrite H, Nat2Z.id. reflexivity.
Qed.

Lemma getitem_first {A} (a : A) (l : list A) : getitem (a :: l) 0 = Returns a.
Proof. reflexivity. Qed.

Lemma last_cons_default {A} (l : list A) (b a : A) :
  List.last (b :: l) a = List.last l b.
Proof.
  revert b a. induction l as [|c l IH]; intros b a; [reflexivity|].
  change (List.last (b :: c :: l) a) with (List.last (c :: l) a).
  rewrite (IH c a), (IH c b). reflexivity.
Qed.

Lemma lookup_length_cons {A} (l : list A) (a : A) :
  (a :: l) !! length l = Some (List.last l a).
Proof.
  revert a. induction l as [|b l IH]; intros a; [reflexivity|].
  change ((a :: b :: l) !! length (b :: l)) with ((b :: l) !! length l).
  rewrite IH. symmetry. f_equal. apply last_cons_default.
Qed.

Lemma getitem_last {A} (a : A) (l : list A) :
  getitem (a :: l) (-1) = Returns (List.last l a).
Proof.
  unfold getitem, len. change (-1 <? 0) with true. cbv iota zeta.
  replace (-1 + Z.of_nat (length (a :: l))) with (Z.of_nat (length l))
    by (simpl length; lia).
  assert (H : (Z.of_nat (length l) <? 0) = false) by (apply Z.ltb_ge; lia).
  rewrite H, Nat2Z.id, lookup_length_cons. reflexivity.
Qed.

(** ** The trend figures *)

Section TrendFigures.

Local Open Scope float_scope.

Lemma compute_trend_cons (s0 : Sample) (rest : DataFrame) :
  compute_trend (s0 :: rest) =
  (let current_price := Float64 (Close (List.last rest s0)) in
   let prev_price := Float64 (Close s0) in
   let delta := sub current_price prev_price in
   Returns {| current_price := current_price; prev_price := prev_price;
              delta := delta;
              delta_percent :=
                if negb (PrimFloat.eqb (Close s0) 0)
                then Float64 (to_float delta / Close s0 * 100)
                else Int 0 |}).
Proof.
  unfold compute_trend, Close_iloc. simpl empty. cbv [negb].
  rewrite getitem_last, getitem_first. cbn [mbind result_bind mret result_ret].
  cbn [ne_zero]. destruct (PrimFloat.eqb (Close s0) 0); reflexivity.
Qed.

(** C5.  On the empty series every figure is the integer 0, and nothing is
    raised on the way. *)
Theorem trend_of_empty_series :
  compute_trend [] =
  Returns {| current_price := Int 0; prev_price := Int 0;
             delta := Int 0; delta_percent := Int 0 |}.
Proof. reflexivity. Qed.

(** C6.  When the first price of a non-empty series equals 0 (as [== 0]
    decides it, so for -0.0 too) the figures are returned and the
    percentage is the integer 0. *)
Theorem trend_zero_reference_guarded (s0 : Sample) (rest : DataFrame) :
  PrimFloat.eqb (Close s0) 0 = true ->
  exists t, compute_trend (s0 :: rest) = Returns t /\ delta_percent t = Int 0.
Proof.
  intros H. rewrite compute_trend_cons. cbv zeta. rewrite H.
  eexists. split; reflexivity.
Qed.

Lemma trend_zero_reference_guarded_witness :
  exists t, compute_trend [sample 0 0; sample 60 3] = Returns t
            /\ delta_percent t = Int 0.
Proof. apply (trend_zero_reference_guarded (sample 0 0) [sample 60 3]). reflexivity. Defined.

(** C2, as amended.  On a non-empty series whose first price is not 0 the
    current figure is the last price, the reference the first price, the
    absolute change their difference and the percentage that difference
    divided by the reference, times 100. *)
Theorem trend_of_nonempty_series (s0 : Sample) (rest : DataFrame) :
  PrimFloat.eqb (Close s0) 0 = false ->
  let current := Close (List.last rest s0) in
  let reference := Close s0 in
  compute_trend (s0 :: rest) =
  Returns {| current_price := Float64 current;
             prev_price := Float64 reference;
             delta := Float64 (current - reference);
             delta_percent := Float64 ((current - reference) / reference * 100) |}.
Proof.
  intros H. rewrite compute_trend_cons. cbv zeta. rewrite H. reflexivity.
Qed.

Lemma trend_of_nonempty_series_witness :
  compute_trend [sample 0 100; sample 60 105] =
  Returns {| current_price := Float64 105; prev_price := Float64 100;
             delta := Float64 5; delta_percent := Float64 5 |}.
Proof. apply (trend_of_nonempty_series (sample 0 100) [sample 60 105]). reflexivity. Defined.

(** C2, as stated, fails where the reference is 0: the program answers the
    integer 0 there, while the quotient of the claim is infinite. *)
Lemma trend_quotient_fails_at_zero_reference :
  exists t, compute_trend [sample 0 0; sample 60 3] = Returns t
            /\ delta_percent t = Int 0
            /\ to_float (delta t) / to_float (prev_price t) * 100 = infinity
            /\ to_float (delta_percent t) <> to_float (delta t) / to_float (prev_price t) * 100.
Proof.
  eexists. split; [reflexivity|]. cbn [delta_percent delta prev_price].
  split; [reflexivity|]. split; [reflexivity|].
  intros H. vm_compute in H. discriminate H.
Qed.

End TrendFigures.

(** ** The document tree *)

Section DocumentOrder.

Lemma PageElement_tree_ind (P : PageElement -> Prop) :
  (forall s, P (NavigableString s)) ->
  (forall s, P (Comment s)) ->
  (forall name contents, Forall P contents -> P (Tag name contents)) ->
  forall e, P e.
Proof.
  intros Hstring Hcomment Htag. fix IH 1. intros [s|s|name contents].
  - apply Hstring.
  - apply Hcomment.
  - apply Htag. induction contents as [|c contents IHc]; constructor.
    + apply IH.
    + exact IHc.
Qed.

(** A descendant of a descendant is a descendant. *)
Lemma descendants_trans (e t x : PageElement) :
  In t (descendants e) -> In x (descendants t) -> In x (descendants e).
Proof.
  revert t x. induction e as [s|s|name contents IH] using PageElement_tree_ind;
    intros t x Ht Hx; try contradiction.
  cbn [descendants] in *. apply in_flat_map in Ht as (c & Hc & Ht).
  apply in_flat_map. exists c. split; [exact Hc|]. right.
  destruct Ht as [->|Ht]; [exact Hx|].
  rewrite List.Forall_forall in IH. exact (IH c Hc t x Ht Hx).
Qed.

Lemma find_app_first {A} (P : A -> bool) (l1 l2 : list A) :
  List.find P (l1 ++ l2) =
  match List.find P l1 with Some a => Some a | None => List.find P l2 end.
Proof.
  induction l1 as [|a l1 IH]; [reflexivity|].
  cbn [app List.find]. destruct (P a); [reflexivity | exact IH].
Qed.

Lemma find_none_incl {A} (P : A -> bool) (l1 l2 : list A) :
  (forall a, In a l2 -> In a l1) -> List.find P l1 = None -> List.find P l2 = None.
Proof.
  intros Hincl Hnone. destruct (List.find P l2) as [a|] eqn:Hfind; [|reflexivity].
  apply find_some in Hfind as [Hin HP].
  rewrite (find_none _ _ Hnone a (Hincl a Hin)) in HP. discriminate HP.
Qed.

Lemma boc_rows_tag (name : pystr) (contents : list PageElement) :
  boc_rows (Tag name contents) = scanned contents.
Proof. reflexivity. Qed.

Lemma scanned_cons (c : PageElement) (contents : list PageElement) :
  scanned (c :: contents) =
  (if is_tag (py "table") c then find_all (py "tr") c else [])
  ++ boc_rows c ++ scanned contents.
Proof.
  unfold scanned, boc_rows. cbn [flat_map].
  change ((c :: descendants c) ++ ?l) with (c :: (descendants c ++ l)).
  cbn [List.filter]. rewrite List.filter_app.
  destruct (is_tag (py "table") c); cbn [flat_map app];
    rewrite flat_map_app; reflexivity.
Qed.

(** The rows scanned below a node are rows below that node. *)
Lemma boc_rows_below (e x : PageElement) :
  In x (boc_rows e) -> In x (find_all (py "tr") e).
Proof.
  unfold boc_rows, find_all. intros H.
  apply in_flat_map in H as (t & Ht & Hx).
  apply filter_In in Ht as [Ht _]. apply filter_In in Hx as [Hx Htr].
  apply filter_In. split; [|exact Htr]. exact (descendants_trans _ _ _ Ht Hx).
Qed.

(** A table that lies in another one is scanned a second time, after the
    rows of the outer table: the first row that satisfies a test is the
    same in the scan and in the document. *)
Lemma find_scanned_document (P : PageElement -> bool) (e : PageElement) :
  List.find P ((if is_tag (py "table") e then find_all (py "tr") e else [])
               ++ boc_rows e)
  = List.find P (table_rows e).
Proof.
  induction e as [s|s|name contents IH] using PageElement_tree_ind;
    try reflexivity.
  cbn [is_tag table_rows]. destruct (bool_decide (name = py "table")).
  - rewrite find_app_first.
    destruct (List.find P (find_all (py "tr") (Tag name contents))) eqn:Hfind;
      [reflexivity|].
    exact (find_none_incl P _ _ (boc_rows_below _) Hfind).
  - cbn [app]. rewrite boc_rows_tag. clear name.
    induction IH as [|c contents Hc _ IHcs]; [reflexivity|].
    rewrite scanned_cons, app_assoc, find_app_first, Hc.
    cbn [flat_map]. rewrite find_app_first, IHcs. reflexivity.
Qed.

Lemma find_first_split {A} (P : A -> bool) (pre : list A) (a : A) (post : list A) :
  Forall (fun x => P x = false) pre -> P a = true ->
  List.find P (pre ++ a :: post) = Some a.
Proof.
  intros Hpre Ha. induction Hpre as [|x pre Hx _ IH]; cbn [app List.find].
  - rewrite Ha. reflexivity.
  - rewrite Hx. exact IH.
Qed.

Lemma find_split_first {A} (P : A -> bool) (l : list A) (a : A) :
  List.find P l = Some a ->
  exists pre post, l = pre ++ a :: post
                   /\ Forall (fun x => P x = false) pre /\ P a = true.
Proof.
  induction l as [|x l IH]; [discriminate|]. cbn [List.find].
  destruct (P x) eqn:Hx.
  - intros [= ->]. exists [], l. repeat split; [constructor | exact Hx].
  - intros H. destruct (IH H) as (pre & post & -> & Hpre & Ha).
    exists (x :: pre), post. repeat split; [constructor; assumption | exact Ha].
Qed.

(** The first row of the document that passes a test is the first one the
    loops of lines 41-43 meet. *)
Lemma scan_meets_first_document_row (P : PageElement -> bool)
    (response : Response) (pre : list PageElement) (row : PageElement)
    (post : list PageElement) :
  table_rows (BeautifulSoup response) = pre ++ row :: post ->
  Forall (fun r => P r = false) pre -> P row = true ->
  exists pre' post',
    boc_rows (BeautifulSoup response) = pre' ++ row :: post'
    /\ Forall (fun r => P r = false) pre'.
Proof.
  intros Hrows Hpre Hrow.
  pose proof (find_scanned_document P (BeautifulSoup response)) as H.
  rewrite Hrows, (find_first_split P _ _ _ Hpre Hrow) in H.
  change (is_tag (py "table") (BeautifulSoup response)) with false in H.
  cbn [app] in H. apply find_split_first in H as (pre' & post' & H' & Hpre' & _).
  eauto.
Qed.

(** A table inside a cell: its rows are met twice by the loops, once in
    the document. *)
Example nested_table_rows :
  boc_rows (BeautifulSoup (page [layout_row]))
  = [layout_row; dollar_row; euro_row; dollar_row; euro_row]
  /\ table_rows (BeautifulSoup (page [layout_row]))
     = [layout_row; dollar_row; euro_row].
Proof. split; reflexivity. Qed.

End DocumentOrder.

(** ** The Bank of China table *)

Section BankOfChina.

Lemma currency_map_solid (code name : pystr) :
  currency_map !! code = Some name -> solid name = true.
Proof.
  unfold currency_map. intros H.
  repeat (apply lookup_insert_Some in H as [[_ <-]|[_ H]]; [reflexivity|]).
  rewrite lookup_empty in H. discriminate H.
Qed.

Lemma solid_truthy (name : pystr) : solid name = true -> str_truthy name = true.
Proof. destruct name; [discriminate | reflexivity]. Qed.

Lemma boc_row_hit_spec (name : pystr) (row : PageElement) :
  solid name = true ->
  boc_row_hit name (find_all (py "td") row) = Returns (first_cell_contains name row).
Proof.
  intros Hs. unfold boc_row_hit, first_cell_contains.
  destruct (find_all (py "td") row) as [|c0 cols]; [reflexivity|].
  change (0 <? len (c0 :: cols)) with true. cbv iota.
  rewrite getitem_first. cbn [mbind result_bind mret result_ret].
  rewrite (contains_strip _ _ Hs). reflexivity.
Qed.

Lemma boc_row_quote_spec (row : PageElement) :
  try_except (q ← boc_row_quote (find_all (py "td") row); mret (Some q)) (mret None)
  = Returns (row_quote row).
Proof.
  unfold boc_row_quote, row_quote.
  rewrite (getitem_nat _ 3), (getitem_nat _ 4).
  destruct (find_all (py "td") row !! 3%nat); [|reflexivity].
  destruct (find_all (py "td") row !! 4%nat); reflexivity.
Qed.

Lemma boc_scan_rows_app (name : pystr) (rows1 rows2 : list PageElement) :
  boc_scan_rows name (rows1 ++ rows2) =
  (r ← boc_scan_rows name rows1;
   match r with
   | Some q => mret (Some q)
   | None => boc_scan_rows name rows2
   end).
Proof.
  induction rows1 as [|row rows1 IH]; [reflexivity|].
  cbn [app boc_scan_rows].
  destruct (boc_row_hit name (find_all (py "td") row)) as [[|]|e];
    cbn [mbind result_bind].
  - destruct (boc_row_quote (find_all (py "td") row)); reflexivity.
  - exact IH.
  - reflexivity.
Qed.

(** The two nested loops are one loop over [boc_rows]. *)
Lemma boc_scan_tables_rows (name : pystr) (tables : list PageElement) :
  boc_scan_tables name tables =
  boc_scan_rows name (flat_map (find_all (py "tr")) tables).
Proof.
  induction tables as [|table tables IH]; [reflexivity|].
  cbn [boc_scan_tables flat_map]. rewrite boc_scan_rows_app.
  destruct (boc_scan_rows name (find_all (py "tr") table)) as [[q|]|e];
    cbn [mbind result_bind]; [reflexivity | exact IH | reflexivity].
Qed.

Lemma boc_scan_rows_first (name : pystr) (pre : list PageElement)
    (row : PageElement) (post : list PageElement) :
  solid name = true ->
  Forall (fun r => first_cell_contains name r = false) pre ->
  first_cell_contains name row = true ->
  boc_scan_rows name (pre ++ row :: post) =
  (q ← boc_row_quote (find_all (py "td") row); mret (Some q)).
Proof.
  intros Hs Hpre Hrow. induction Hpre as [|r pre Hr _ IH].
  - cbn [app boc_scan_rows]. rewrite (boc_row_hit_spec _ _ Hs), Hrow. reflexivity.
  - cbn [app boc_scan_rows]. rewrite (boc_row_hit_spec _ _ Hs), Hr. exact IH.
Qed.

Lemma boc_scan_rows_none (name : pystr) (rows : list PageElement) :
  solid name = true ->
  Forall (fun r => first_cell_contains name r = false) rows ->
  boc_scan_rows name rows = Returns None.
Proof.
  intros Hs Hrows. induction Hrows as [|r rows Hr _ IH]; [reflexivity|].
  cbn [boc_scan_rows]. rewrite (boc_row_hit_spec _ _ Hs), Hr. exact IH.
Qed.

Lemma get_boc_rates_rows (w : World) (code name : pystr) (response : Response) :
  requests_get w boc_url = Returns response ->
  currency_map !! code = Some name ->
  get_boc_rates w code =
  try_except (boc_scan_rows name (boc_rows (BeautifulSoup response))) (mret None).
Proof.
  intros Hget Hname. unfold get_boc_rates. rewrite Hget.
  cbn [mbind result_bind]. rewrite Hname.
  rewrite (solid_truthy _ (currency_map_solid _ _ Hname)). cbn [negb].
  rewrite boc_scan_tables_rows. reflexivity.
Qed.

Lemma get_boc_rates_first_match (w : World) (code name : pystr)
    (response : Response) (pre : list PageElement) (row : PageElement)
    (post : list PageElement) :
  requests_get w boc_url = Returns response ->
  currency_map !! code = Some name ->
  boc_rows (BeautifulSoup response) = pre ++ row :: post ->
  Forall (fun r => first_cell_contains name r = false) pre ->
  first_cell_contains name row = true ->
  get_boc_rates w code = Returns (row_quote row).
Proof.
  intros Hget Hname Hrows Hpre Hrow.
  rewrite (get_boc_rates_rows _ _ _ _ Hget Hname), Hrows.
  rewrite (boc_scan_rows_first _ _ _ _ (currency_map_solid _ _ Hname) Hpre Hrow).
  apply boc_row_quote_spec.
Qed.

Lemma get_boc_rates_first_document_row (w : World) (code name : pystr)
    (response : Response) (pre : list PageElement) (row : PageElement)
    (post : list PageElement) :
  requests_get w boc_url = Returns response ->
  currency_map !! code = Some name ->
  table_rows (BeautifulSoup response) = pre ++ row :: post ->
  Forall (fun r => first_cell_contains name r = false) pre ->
  first_cell_contains name row = true ->
  get_boc_rates w code = Returns (row_quote row).
Proof.
  intros Hget Hname Hrows Hpre Hrow.
  destruct (scan_meets_first_document_row _ _ _ _ _ Hrows Hpre Hrow)
    as (pre' & post' & Hrows' & Hpre').
  exact (get_boc_rates_first_match _ _ _ _ _ _ _ Hget Hname Hrows' Hpre' Hrow).
Qed.




(** C7, as amended.  The row that counts is the first row of the
    document's tables whose first [td] element has a text that contains
    the name of the currency.  The columns are the [td] elements that
    [find_all] finds below that row, in document order: those of a table
    nested in the row count, [th] elements do not.  When there is a 4th
    and a 5th of them, the quote holds their texts with the blanks at both
    ends removed; when there are fewer than five, the answer is the absent
    marker. *)
Theorem boc_quote_of_matching_row (w : World) (code name : pystr)
    (response : Response) (pre : list PageElement) (row : PageElement)
    (post : list PageElement) :
  requests_get w boc_url = Returns response ->
  currency_map !! code = Some name ->
  table_rows (BeautifulSoup response) = pre ++ row :: post ->
  Forall (fun r => first_cell_contains name r = false) pre ->
  first_cell_contains name row = true ->
  (forall c3 c4 : PageElement,
      find_all (py "td") row !! 3%nat = Some c3 ->
      find_all (py "td") row !! 4%nat = Some c4 ->
      get_boc_rates w code =
      Returns (Some {| spot_sell := VStr (strip (text c3));
                       cash_sell := VStr (strip (text c4)) |}))
  /\ ((length (find_all (py "td") row) < 5)%nat ->
      get_boc_rates w code = Returns None).
Proof.
  intros Hget Hname Hrows Hpre Hrow.
  rewrite (get_boc_rates_first_document_row _ _ _ _ _ _ _
             Hget Hname Hrows Hpre Hrow).
  unfold row_quote. split.
  - intros c3 c4 -> ->. reflexivity.
  - intros Hlen.
    destruct (find_all (py "td") row !! 3%nat) eqn:H3; [|reflexivity].
    destruct (find_all (py "td") row !! 4%nat) eqn:H4; [|reflexivity].
    apply lookup_lt_Some in H4. lia.
Qed.

Lemma boc_quote_of_matching_row_witness :
  get_boc_rates (boc_world [header_row; dollar_row; euro_row]) (py "EUR")
  = Returns (Some {| spot_sell := VStr (py "827.72"); cash_sell := VStr (py "830.39") |}).
Proof.
  refine (proj1 (boc_quote_of_matching_row
            (boc_world [header_row; dollar_row; euro_row])
            (py "EUR") euro (page [header_row; dollar_row; euro_row])
            [header_row; dollar_row] euro_row [] _ _ _ _ _)
            (td (py " 827.72 ")) (td (py " 830.39 ")) _ _).
  - reflexivity.
  - reflexivity.
  - reflexivity.
  - repeat constructor.
  - reflexivity.
  - reflexivity.
  - reflexivity.
Defined.

(** C7, as stated, fails on a row that has the name in its first cell and
    fewer than five cells: the answer is the absent marker, not a quote. *)
Lemma boc_short_row_is_absent :
  currency_map !! py "EUR" = Some euro
  /\ table_rows (BeautifulSoup (page [header_row; short_euro_row]))
     = [header_row; short_euro_row]
  /\ first_cell_contains euro short_euro_row = true
  /\ get_boc_rates (boc_world [header_row; short_euro_row]) (py "EUR") = Returns None.
Proof. repeat split; reflexivity. Qed.

End BankOfChina.

(** ** The China Merchants Bank API *)

Section MerchantsBank.

Lemma cmb_item_hit_str (name : pystr) (rec : list (pystr * value)) (s : pystr) :
  dict_lookup (py "ccyNbr") rec = Some (VStr s) ->
  cmb_item_hit (Some name) (VDict rec) = Returns (contains name s).
Proof. intros H. unfold cmb_item_hit, get_method. rewrite H. reflexivity. Qed.

Lemma cmb_scan_first (target_name : option pystr) (pre : list value)
    (item : value) (post : list value) :
  Forall (fun i => cmb_item_hit target_name i = Returns false) pre ->
  cmb_item_hit target_name item = Returns true ->
  cmb_scan target_name (pre ++ item :: post) =
  (q ← cmb_item_quote item; mret (Some q)).
Proof.
  intros Hpre Hitem. induction Hpre as [|i pre Hi _ IH].
  - cbn [app cmb_scan]. rewrite Hitem. reflexivity.
  - cbn [app cmb_scan]. rewrite Hi. exact IH.
Qed.

(** With no name to look for, the loop ends in the absent marker or in an
    exception unless a record carries a list as its name. *)
Lemma cmb_scan_no_target (items : list value) :
  Forall (fun i => name_is_list i = false) items ->
  try_except (cmb_scan None items) (mret None) = Returns None.
Proof.
  intros H. induction H as [|item items Hitem _ IH]; [reflexivity|].
  cbn [cmb_scan]. unfold cmb_item_hit, get_method.
  destruct item as [| | | | |l|rec]; try reflexivity.
  cbn [mbind result_bind mret result_ret]. unfold name_is_list in Hitem.
  destruct (dict_lookup (py "ccyNbr") rec) as [[| | | | |l|d]|];
    try reflexivity; try discriminate Hitem.
  exact IH.
Qed.

Lemma get_cmb_rates_records (w : World) (code : pystr) (response : Response)
    (d : list (pystr * value)) (records : list value) :
  requests_get w cmb_url = Returns response ->
  status_code response = 200 ->
  json response = Returns (VDict d) ->
  dict_lookup (py "body") d = Some (VList records) ->
  get_cmb_rates w code =
  try_except (cmb_scan (currency_map !! code) records) (mret None).
Proof.
  intros Hget Hstatus Hjson Hbody. unfold get_cmb_rates.
  rewrite Hget. cbn [mbind result_bind]. rewrite Hstatus, Hjson.
  cbn [Z.eqb Pos.eqb negb mbind result_bind py_in subscript mret result_ret].
  rewrite Hbody. rewrite bool_decide_eq_true_2 by eauto. reflexivity.
Qed.

(** C8.  When the API answers with a status other than 200, or with JSON
    that has no [body] key, the answer is the absent marker. *)
Theorem cmb_without_body_is_absent (w : World) (code : pystr) (response : Response) :
  requests_get w cmb_url = Returns response ->
  status_code response <> 200
  \/ (exists data, json response = Returns data /\ has_body_key data = false) ->
  get_cmb_rates w code = Returns None.
Proof.
  intros Hget H. unfold get_cmb_rates. rewrite Hget. cbn [mbind result_bind].
  destruct (Z.eqb_spec (status_code response) 200) as [Hs|Hs]; cbn [negb];
    [|reflexivity].
  destruct H as [H|(data & Hjson & Hbody)]; [contradiction|].
  rewrite Hjson. cbn [mbind result_bind].
  destruct data as [| | | |s|l|d]; try reflexivity.
  - cbn [py_in mret result_ret mbind result_bind].
    destruct (contains (py "body") s); reflexivity.
  - cbn [py_in mret result_ret mbind result_bind].
    destruct (existsb _ l); reflexivity.
  - cbn [py_in mret result_ret mbind result_bind]. unfold has_body_key in Hbody.
    rewrite Hbody. reflexivity.
Qed.

Lemma cmb_without_body_is_absent_witness :
  get_cmb_rates (cmb_world (VDict [(py "returnCode", VStr (py "SYS9999"))])) (py "EUR")
  = Returns None.
Proof.
  apply (cmb_without_body_is_absent
           (cmb_world (VDict [(py "returnCode", VStr (py "SYS9999"))])) (py "EUR")
           (api (VDict [(py "returnCode", VStr (py "SYS9999"))]))).
  - reflexivity.
  - right. eexists. split; reflexivity.
Defined.

(** C9, as amended.  When the API answers with status 200 and a JSON
    object whose [body] is a list, and the first record of that list whose
    name field matches the name of the currency comes after elements on
    which the test of line 64 can be made and fails, the answer is a
    quote, in which a rate field the record lacks is the string N/A and a
    rate field it has is that value. *)
Theorem cmb_missing_rate_is_placeholder (w : World) (code name : pystr)
    (response : Response) (d : list (pystr * value)) (pre : list value)
    (rec : list (pystr * value)) (post : list value) :
  requests_get w cmb_url = Returns response ->
  status_code response = 200 ->
  json response = Returns (VDict d) ->
  dict_lookup (py "body") d = Some (VList (pre ++ VDict rec :: post)) ->
  currency_map !! code = Some name ->
  Forall (fun item => cmb_item_hit (Some name) item = Returns false) pre ->
  cmb_item_hit (Some name) (VDict rec) = Returns true ->
  exists q, get_cmb_rates w code = Returns (Some q)
    /\ spot_sell q = default NA (dict_lookup (py "rthOfr") rec)
    /\ cash_sell q = default NA (dict_lookup (py "rtcOfr") rec)
    /\ (dict_lookup (py "rthOfr") rec = None -> spot_sell q = VStr (py "N/A"))
    /\ (dict_lookup (py "rtcOfr") rec = None -> cash_sell q = VStr (py "N/A")).
Proof.
  intros Hget Hstatus Hjson Hbody Hname Hpre Hrec.
  rewrite (get_cmb_rates_records _ _ _ _ _ Hget Hstatus Hjson Hbody), Hname.
  rewrite (cmb_scan_first _ _ _ _ Hpre Hrec).
  eexists. split; [reflexivity|]. cbn [spot_sell cash_sell].
  split; [reflexivity|]. split; [reflexivity|].
  split; intros ->; reflexivity.
Qed.

Lemma cmb_missing_rate_is_placeholder_witness :
  exists q,
    get_cmb_rates (cmb_world (body_of [dollar_record; VDict euro_record_bare])) (py "EUR")
    = Returns (Some q)
    /\ spot_sell q = VStr (py "N/A") /\ cash_sell q = VStr (py "N/A").
Proof.
  destruct (cmb_missing_rate_is_placeholder
              (cmb_world (body_of [dollar_record; VDict euro_record_bare]))
              (py "EUR") euro
              (api (body_of [dollar_record; VDict euro_record_bare]))
              [(py "returnCode", VStr (py "SUC0000"));
               (py "body", VList [dollar_record; VDict euro_record_bare])]
              [dollar_record] euro_record_bare [])
    as (q & Hq & _ & _ & Hspot & Hcash).
  - reflexivity.
  - reflexivity.
  - reflexivity.
  - reflexivity.
  - reflexivity.
  - repeat constructor.
  - reflexivity.
  - exists q. split; [exact Hq|]. split; [apply Hspot | apply Hcash]; reflexivity.
Defined.

(** C9, as stated, fails when a record before the matching one cannot be
    tested: here the first record has a null name, the test of line 64
    raises on it, and the answer is the absent marker although the next
    record is named after the currency and lacks both rate fields. *)
Lemma cmb_record_after_null_name_is_absent :
  currency_map !! py "EUR" = Some euro
  /\ json (api (body_of [null_name_record; VDict euro_record_bare]))
     = Returns (VDict [(py "returnCode", VStr (py "SUC0000"));
                       (py "body", VList [null_name_record; VDict euro_record_bare])])
  /\ cmb_item_hit (Some euro) (VDict euro_record_bare) = Returns true
  /\ dict_lookup (py "rthOfr") euro_record_bare = None
  /\ dict_lookup (py "rtcOfr") euro_record_bare = None
  /\ cmb_item_hit (Some euro) null_name_record = Raises TypeError
  /\ get_cmb_rates (cmb_world (body_of [null_name_record; VDict euro_record_bare]))
       (py "EUR") = Returns None.
Proof. repeat split; reflexivity. Qed.

End MerchantsBank.

(** ** Failures *)

Section Failures.

Lemma try_except_returns {A} (body : result A) (a : A) :
  exists o, try_except body (mret a) = Returns o.
Proof. destruct body; eexists; reflexivity. Qed.

Lemma try_except_raises {A} (e : exn) (a : A) :
  try_except (Raises e) (mret a) = Returns a.
Proof. reflexivity. Qed.

Lemma get_boc_rates_returns (w : World) (code : pystr) :
  exists o, get_boc_rates w code = Returns o.
Proof. apply try_except_returns. Qed.

Lemma get_cmb_rates_returns (w : World) (code : pystr) :
  exists o, get_cmb_rates w code = Returns o.
Proof. apply try_except_returns. Qed.

(** C1.  Whatever the upstream does (the call raises, the status is not
    200, the document has no table or no row for the currency, the JSON
    does not parse or has another shape), and for every currency code, each
    of the two providers returns: a quote or the absent marker. *)
Theorem bank_providers_never_raise (w : World) (currency_code : pystr) :
  (exists o : option QuotePair, get_boc_rates w currency_code = Returns o)
  /\ (exists o : option QuotePair, get_cmb_rates w currency_code = Returns o).
Proof.
  split; [apply get_boc_rates_returns | apply get_cmb_rates_returns].
Qed.

(** The failures C1 names, one by one. *)
Lemma boc_transport_failure (w : World) (code : pystr) (e : exn) :
  requests_get w boc_url = Raises e -> get_boc_rates w code = Returns None.
Proof. intros H. unfold get_boc_rates. rewrite H. reflexivity. Qed.

Lemma cmb_transport_failure (w : World) (code : pystr) (e : exn) :
  requests_get w cmb_url = Raises e -> get_cmb_rates w code = Returns None.
Proof. intros H. unfold get_cmb_rates. rewrite H. reflexivity. Qed.

Lemma cmb_parse_failure (w : World) (code : pystr) (response : Response) (e : exn) :
  requests_get w cmb_url = Returns response -> json response = Raises e ->
  get_cmb_rates w code = Returns None.
Proof.
  intros H He. unfold get_cmb_rates. rewrite H. cbn [mbind result_bind]. rewrite He.
  destruct (negb _); reflexivity.
Qed.

Lemma boc_missing_row (w : World) (code name : pystr) (response : Response) :
  requests_get w boc_url = Returns response ->
  currency_map !! code = Some name ->
  Forall (fun r => first_cell_contains name r = false)
         (boc_rows (BeautifulSoup response)) ->
  get_boc_rates w code = Returns None.
Proof.
  intros Hget Hname Hrows. rewrite (get_boc_rates_rows _ _ _ _ Hget Hname).
  rewrite (boc_scan_rows_none _ _ (currency_map_solid _ _ Hname) Hrows). reflexivity.
Qed.

Lemma boc_unsupported (w : World) (code : pystr) :
  currency_map !! code = None -> get_boc_rates w code = Returns None.
Proof.
  intros H. unfold get_boc_rates. rewrite H.
  destruct (requests_get w boc_url); reflexivity.
Qed.

Lemma cmb_unsupported (w : World) (code : pystr) :
  currency_map !! code = None ->
  (forall records, cmb_records w = Returns records ->
                   Forall (fun i => name_is_list i = false) records) ->
  get_cmb_rates w code = Returns None.
Proof.
  intros Hcode Hrec. unfold get_cmb_rates. unfold cmb_records in Hrec.
  destruct (requests_get w cmb_url) as [response|e]; [|reflexivity].
  cbn [mbind result_bind] in *.
  destruct (negb (status_code response =? 200)); [reflexivity|].
  destruct (json response) as [data|e]; [|reflexivity].
  cbn [mbind result_bind] in *.
  destruct (py_in (Some (py "body")) data) as [[|]|e]; try reflexivity.
  cbn [mbind result_bind].
  destruct (subscript data (py "body")) as [body|e]; [|reflexivity].
  cbn [mbind result_bind] in *.
  destruct (iterate body) as [records|e]; [|reflexivity].
  cbn [mbind result_bind]. rewrite Hcode.
  apply cmb_scan_no_target, Hrec. reflexivity.
Qed.

(** Why the proviso on list names: [None in [None]] is true. *)
Example unsupported_code_list_name :
  get_cmb_rates (cmb_world (body_of [list_name_record])) (py "CHF")
  = Returns (Some {| spot_sell := VStr (py "1.0"); cash_sell := VStr (py "N/A") |}).
Proof. reflexivity. Qed.

(** C3, as amended.  A currency code outside the five of [currency_map] is
    not signalled: [get_boc_rates] returns the absent marker whatever the
    upstream answers, and [get_cmb_rates] returns too, the absent marker as
    long as no record of the answer carries a list as its name. *)
Theorem unsupported_code_is_swallowed (w : World) (code : pystr) :
  currency_map !! code = None ->
  get_boc_rates w code = Returns None
  /\ (exists o, get_cmb_rates w code = Returns o)
  /\ ((forall records, cmb_records w = Returns records ->
                       Forall (fun i => name_is_list i = false) records) ->
      get_cmb_rates w code = Returns None).
Proof.
  intros H. split; [exact (boc_unsupported _ _ H)|].
  split; [apply get_cmb_rates_returns | exact (cmb_unsupported _ _ H)].
Qed.

Lemma unsupported_code_is_swallowed_witness :
  get_boc_rates (live_world (Returns [])) (py "CHF") = Returns None
  /\ exists o, get_cmb_rates (live_world (Returns [])) (py "CHF") = Returns o.
Proof.
  destruct (unsupported_code_is_swallowed (live_world (Returns [])) (py "CHF"))
    as (Hboc & Hcmb & _).
  - reflexivity.
  - split; [exact Hboc | exact Hcmb].
Defined.

(** C3, as stated, fails: for the code CHF, which [currency_map] does not
    hold, both providers return the absent marker and raise nothing. *)
Lemma unsupported_code_returns_absent :
  currency_map !! py "CHF" = None
  /\ get_boc_rates (live_world (Returns [])) (py "CHF") = Returns None
  /\ get_cmb_rates (live_world (Returns [])) (py "CHF") = Returns None
  /\ ~ (exists e, get_boc_rates (live_world (Returns [])) (py "CHF") = Raises e)
  /\ ~ (exists e, get_cmb_rates (live_world (Returns [])) (py "CHF") = Raises e).
Proof.
  repeat split; try reflexivity; intros [e H]; discriminate H.
Qed.

End Failures.

(** ** The snapshot *)

Section SnapshotOfThePage.

Lemma get_history_propagates (w : World) (ticker period interval : pystr) (e : exn) :
  yf_history w ticker period interval = Raises e ->
  get_history w ticker period interval = Raises e.
Proof. intros H. unfold get_history. rewrite H. reflexivity. Qed.

Lemma compute_trend_returns (hist : DataFrame) :
  exists t, compute_trend hist = Returns t.
Proof.
  destruct hist as [|s0 rest]; [eexists; reflexivity|].
  rewrite compute_trend_cons. eexists. reflexivity.
Qed.

(** Once the time-series call has returned, nothing fails any more. *)
Lemma snapshot_when_history_returns (w : World) (currency range : pystr)
    (info r : pystr * pystr) (hist : DataFrame) :
  currencies !! currency = Some info ->
  time_ranges !! range = Some r ->
  yf_history w (fst info) (fst r) (snd r) = Returns hist ->
  exists s, build_snapshot w currency range = Returns s /\ hist_data s = hist.
Proof.
  intros Hc Hr Hh. unfold build_snapshot, table_getitem, get_history.
  rewrite Hc, Hr. cbn [mbind result_bind mret result_ret]. rewrite Hh.
  cbn [mbind result_bind].
  destruct (get_boc_rates_returns w currency) as [b Hb].
  destruct (get_cmb_rates_returns w currency) as [c Hc'].
  destruct (compute_trend_returns hist) as [t Ht].
  rewrite Hb. cbn [mbind result_bind]. rewrite Hc'.
  cbn [mbind result_bind mret result_ret].
  rewrite Ht. eexists. split; reflexivity.
Qed.

(** The worst case that is reached without an exception: both banks time
    out and the frame is empty. *)
Example worst_case_snapshot :
  build_snapshot (world (Raises timeout) (Raises timeout) (Returns []))
                 (py "EUR") (py "48h")
  = Returns {| hist_data := []; boc_rate := None; cmb_rate := None;
               trend := {| current_price := Int 0; prev_price := Int 0;
                           delta := Int 0; delta_percent := Int 0 |} |}.
Proof. reflexivity. Qed.

(** C4 at the failing input: the time-series call raises a connection
    error while both banks answer.  [get_history] lets the error through
    and the script stops there; no snapshot with an empty series is built. *)
Theorem history_failure_aborts_snapshot :
  get_history (live_world (Raises connection_error))
              (py "EURCNY=X") (py "5d") (py "2m") = Raises connection_error
  /\ build_snapshot (live_world (Raises connection_error)) (py "EUR") (py "48h")
     = Raises connection_error.
Proof. split; reflexivity. Qed.

End SnapshotOfThePage.

(** * Further properties of the code *)

(** ** What get_boc_rates answers *)

Section BankOfChinaAnswer.

Lemma find_none_Forall {A} (P : A -> bool) (l : list A) :
  List.find P l = None -> Forall (fun x => P x = false) l.
Proof.
  intros H. apply List.Forall_forall. intros x Hx. exact (find_none P l H x Hx).
Qed.

Lemma find_boc_rows_document (P : PageElement -> bool) (response : Response) :
  List.find P (boc_rows (BeautifulSoup response))
  = List.find P (table_rows (BeautifulSoup response)).
Proof. exact (find_scanned_document P (BeautifulSoup response)). Qed.

Lemma get_boc_rates_boc_answer (w : World) (code name : pystr) (response : Response) :
  requests_get w boc_url = Returns response ->
  currency_map !! code = Some name ->
  get_boc_rates w code = Returns (boc_answer name (BeautifulSoup response)).
Proof.
  intros Hget Hname. unfold boc_answer.
  destruct (List.find (first_cell_contains name) (table_rows (BeautifulSoup response)))
    as [row|] eqn:Hfind.
  - apply find_split_first in Hfind as (pre & post & Hrows & Hpre & Hrow).
    exact (get_boc_rates_first_document_row _ _ _ _ _ _ _ Hget Hname Hrows Hpre Hrow).
  - rewrite <- find_boc_rows_document in Hfind.
    exact (boc_missing_row _ _ _ _ Hget Hname (find_none_Forall _ _ Hfind)).
Qed.

(** X1.  For a supported currency and a page that was fetched,
    [get_boc_rates] answers [boc_answer]: the absent marker when no row of
    a table has a first [td] element whose text contains the name; and
    otherwise, for the first such row in document order and the [td]
    elements that [find_all] finds below it (those of a nested table
    included, [th] elements not), the quote of the stripped texts of the
    4th and 5th, or the absent marker when there are fewer than five. *)
Theorem get_boc_rates_answer (w : World) (code name : pystr) (response : Response) :
  requests_get w boc_url = Returns response ->
  currency_map !! code = Some name ->
  get_boc_rates w code = Returns (boc_answer name (BeautifulSoup response)).
Proof. exact (get_boc_rates_boc_answer w code name response). Qed.

Lemma get_boc_rates_answer_witness :
  get_boc_rates (boc_world [header_row; dollar_row]) (py "EUR") = Returns None
  /\ get_boc_rates (boc_world [header_row; dollar_row; euro_row]) (py "EUR")
     = Returns (Some {| spot_sell := VStr (py "827.72");
                        cash_sell := VStr (py "830.39") |}).
Proof.
  split.
  - apply (get_boc_rates_answer (boc_world [header_row; dollar_row]) (py "EUR") euro
             (page [header_row; dollar_row])); reflexivity.
  - apply (get_boc_rates_answer (boc_world [header_row; dollar_row; euro_row])
             (py "EUR") euro (page [header_row; dollar_row; euro_row])); reflexivity.
Defined.

(** X2.  [get_boc_rates] never looks at the status code: two responses
    that carry the same document get the same answer, so an error page
    that shows a rate table is read like a good one. *)
Theorem get_boc_rates_ignores_status (w w' : World) (code : pystr)
    (response response' : Response) :
  requests_get w boc_url = Returns response ->
  requests_get w' boc_url = Returns response' ->
  html response = html response' ->
  get_boc_rates w code = get_boc_rates w' code.
Proof.
  intros Hget Hget' Hhtml. unfold get_boc_rates, BeautifulSoup.
  rewrite Hget, Hget'. cbn [mbind result_bind]. rewrite Hhtml. reflexivity.
Qed.

Lemma get_boc_rates_ignores_status_witness :
  get_boc_rates (world (Returns (error_page [header_row; euro_row]))
                       (Raises timeout) (Returns [])) (py "EUR")
  = Returns (Some {| spot_sell := VStr (py "827.72");
                     cash_sell := VStr (py "830.39") |}).
Proof.
  rewrite (get_boc_rates_ignores_status
             (world (Returns (error_page [header_row; euro_row]))
                    (Raises timeout) (Returns []))
             (boc_world [header_row; euro_row]) (py "EUR")
             (error_page [header_row; euro_row]) (page [header_row; euro_row])
             eq_refl eq_refl eq_refl).
  reflexivity.
Defined.

Lemma get_boc_rates_some_inv (w : World) (code : pystr) (q : QuotePair) :
  get_boc_rates w code = Returns (Some q) ->
  exists response name row,
    requests_get w boc_url = Returns response
    /\ currency_map !! code = Some name
    /\ In row (table_rows (BeautifulSoup response))
    /\ first_cell_contains name row = true
    /\ row_quote row = Some q.
Proof.
  intros H.
  destruct (requests_get w boc_url) as [response|e] eqn:Hget.
  2:{ rewrite (boc_transport_failure _ _ _ Hget) in H. discriminate H. }
  destruct (currency_map !! code) as [name|] eqn:Hname.
  2:{ rewrite (boc_unsupported _ _ Hname) in H. discriminate H. }
  rewrite (get_boc_rates_boc_answer _ _ _ _ Hget Hname) in H.
  unfold boc_answer in H.
  destruct (List.find (first_cell_contains name) (table_rows (BeautifulSoup response)))
    as [row|] eqn:Hfind; [|discriminate H].
  apply find_some in Hfind as [Hin Hrow]. injection H as H.
  exists response, name, row. auto.
Qed.



Lemma lstrip_head (s : pystr) :
  match lstrip s with [] => true | c :: _ => negb (isspace c) end = true.
Proof.
  induction s as [|c s IH]; [reflexivity|].
  cbn [lstrip]. destruct (isspace c) eqn:Hc; [exact IH|]. rewrite Hc. reflexivity.
Qed.

Lemma lstrip_split (s : pystr) : exists blanks, s = blanks ++ lstrip s.
Proof.
  induction s as [|c s [blanks IH]]; [exists []; reflexivity|].
  cbn [lstrip]. destruct (isspace c).
  - exists (c :: blanks). cbn [app]. f_equal. exact IH.
  - exists []. reflexivity.
Qed.

(** What [strip] returns has no blank at either end. *)
Lemma strip_stripped (s : pystr) : stripped (strip s) = true.
Proof.
  unfold stripped, strip, rstrip. rewrite rev_involutive.
  apply andb_true_iff. split; [|apply lstrip_head].
  destruct (lstrip_split (rev (lstrip s))) as [blanks Hsplit].
  apply (f_equal (@rev N)) in Hsplit.
  rewrite rev_involutive, rev_app_distr in Hsplit.
  pose proof (lstrip_head s) as Hhead. rewrite Hsplit in Hhead.
  destruct (rev (lstrip (rev (lstrip s)))); [reflexivity | exact Hhead].
Qed.

Lemma get_boc_rates_some_stripped (w : World) (code : pystr) (q : QuotePair) :
  get_boc_rates w code = Returns (Some q) ->
  exists spot cash,
    q = {| spot_sell := VStr spot; cash_sell := VStr cash |}
    /\ stripped spot = true /\ stripped cash = true.
Proof.
  intros H.
  destruct (get_boc_rates_some_inv _ _ _ H)
    as (response & name & row & _ & _ & _ & _ & Hq).
  unfold row_quote in Hq.
  destruct (find_all (py "td") row !! 3%nat) as [c3|]; [|discriminate Hq].
  destruct (find_all (py "td") row !! 4%nat) as [c4|]; [|discriminate Hq].
  injection Hq as <-. eexists _, _. split; [reflexivity|].
  split; apply strip_stripped.
Qed.

(** X4.  The two fields of a quote of [get_boc_rates] are strings, and
    neither starts or ends with a blank. *)
Theorem get_boc_rates_quote_stripped (w : World) (code : pystr) (q : QuotePair) :
  get_boc_rates w code = Returns (Some q) ->
  exists spot cash,
    q = {| spot_sell := VStr spot; cash_sell := VStr cash |}
    /\ stripped spot = true /\ stripped cash = true.
Proof. exact (get_boc_rates_some_stripped w code q). Qed.

Lemma get_boc_rates_quote_stripped_witness :
  exists spot cash,
    {| spot_sell := VStr (py "827.72"); cash_sell := VStr (py "830.39") |}
    = {| spot_sell := VStr spot; cash_sell := VStr cash |}
    /\ stripped spot = true /\ stripped cash = true.
Proof.
  apply (get_boc_rates_quote_stripped (boc_world [header_row; dollar_row; euro_row])
           (py "EUR")).
  reflexivity.
Defined.



End BankOfChinaAnswer.

(** ** What get_cmb_rates answers *)

Section MerchantsBankAnswer.

Lemma cmb_item_hit_named (name : pystr) (item : value) :
  named_record item = true ->
  cmb_item_hit (Some name) item = Returns (record_matches name item).
Proof.
  destruct item as [| | | | | |rec]; try discriminate.
  unfold named_record, record_matches, cmb_item_hit, get_method, record_name.
  cbn [mbind result_bind mret result_ret].
  destruct (default (VStr []) (dict_lookup (py "ccyNbr") rec));
    try discriminate. reflexivity.
Qed.

Lemma cmb_item_quote_record (rec : list (pystr * value)) :
  cmb_item_quote (VDict rec) = Returns (record_quote rec).
Proof. reflexivity. Qed.

Lemma cmb_scan_named (name : pystr) (records : list value) :
  Forall (fun item => named_record item = true) records ->
  cmb_scan (Some name) records = Returns (cmb_answer name records).
Proof.
  intros H. induction H as [|item records Hitem _ IH]; [reflexivity|].
  cbn [cmb_scan]. rewrite (cmb_item_hit_named _ _ Hitem).
  cbn [mbind result_bind]. unfold cmb_answer. cbn [List.find].
  destruct (record_matches name item) eqn:Hm.
  - destruct item as [| | | | | |rec]; try discriminate Hitem. reflexivity.
  - exact IH.
Qed.

(** X6.  When the API answers 200 with a [body] list in which every
    record is an object whose name is a string (or missing),
    [get_cmb_rates] returns the rates of the first record whose name
    contains the name of the currency, N/A standing for a rate the record
    lacks, and the absent marker when no record matches. *)
Theorem get_cmb_rates_answer (w : World) (code name : pystr)
    (response : Response) (d : list (pystr * value)) (records : list value) :
  requests_get w cmb_url = Returns response ->
  status_code response = 200 ->
  json response = Returns (VDict d) ->
  dict_lookup (py "body") d = Some (VList records) ->
  currency_map !! code = Some name ->
  Forall (fun item => named_record item = true) records ->
  get_cmb_rates w code = Returns (cmb_answer name records).
Proof.
  intros Hget Hstatus Hjson Hbody Hname Hrecords.
  rewrite (get_cmb_rates_records _ _ _ _ _ Hget Hstatus Hjson Hbody), Hname.
  rewrite (cmb_scan_named _ _ Hrecords). reflexivity.
Qed.

Lemma get_cmb_rates_answer_witness :
  get_cmb_rates (cmb_world (body_of [dollar_record; VDict euro_record])) (py "EUR")
  = Returns (Some {| spot_sell := VStr (py "828.1"); cash_sell := VFloat 830.5 |})
  /\ get_cmb_rates (cmb_world (body_of [dollar_record])) (py "EUR") = Returns None.
Proof.
  split.
  - apply (get_cmb_rates_answer
             (cmb_world (body_of [dollar_record; VDict euro_record])) (py "EUR") euro
             (api (body_of [dollar_record; VDict euro_record]))
             [(py "returnCode", VStr (py "SUC0000"));
              (py "body", VList [dollar_record; VDict euro_record])]
             [dollar_record; VDict euro_record]);
      try reflexivity. repeat constructor.
  - apply (get_cmb_rates_answer
             (cmb_world (body_of [dollar_record])) (py "EUR") euro
             (api (body_of [dollar_record]))
             [(py "returnCode", VStr (py "SUC0000"));
              (py "body", VList [dollar_record])]
             [dollar_record]);
      try reflexivity. repeat constructor.
Defined.

(** X7.  When [body] is anything but a list (an object, a string, a
    number, null), [get_cmb_rates] returns the absent marker: the loop
    either cannot start or stops on its first element. *)
Theorem get_cmb_rates_body_not_list (w : World) (code : pystr)
    (response : Response) (d : list (pystr * value)) (body : value) :
  requests_get w cmb_url = Returns response ->
  json response = Returns (VDict d) ->
  dict_lookup (py "body") d = Some body ->
  is_list body = false ->
  get_cmb_rates w code = Returns None.
Proof.
  intros Hget Hjson Hbody Hlist. unfold get_cmb_rates.
  rewrite Hget. cbn [mbind result_bind].
  destruct (negb (status_code response =? 200)); [reflexivity|].
  rewrite Hjson. cbn [mbind result_bind py_in subscript mret result_ret].
  rewrite Hbody. rewrite bool_decide_eq_true_2 by eauto.
  cbn [mbind result_bind].
  destruct body as [| | | |s|l|items]; try reflexivity; try discriminate Hlist.
  - destruct s; reflexivity.
  - destruct items; reflexivity.
Qed.

Lemma get_cmb_rates_body_not_list_witness :
  get_cmb_rates
    (cmb_world (VDict [(py "body", VDict [(py "EUR", VDict euro_record)])]))
    (py "EUR")
  = Returns None.
Proof.
  apply (get_cmb_rates_body_not_list
           (cmb_world (VDict [(py "body", VDict [(py "EUR", VDict euro_record)])]))
           (py "EUR")
           (api (VDict [(py "body", VDict [(py "EUR", VDict euro_record)])]))
           [(py "body", VDict [(py "EUR", VDict euro_record)])]
           (VDict [(py "EUR", VDict euro_record)]));
    reflexivity.
Defined.

Lemma cmb_item_hit_untestable (name : pystr) (item : value) :
  untestable item = true -> exists e, cmb_item_hit (Some name) item = Raises e.
Proof.
  unfold untestable, cmb_item_hit, get_method, record_name.
  destruct item as [| | | | | |rec]; try (intros _; eexists; reflexivity).
  cbn [mbind result_bind mret result_ret].
  destruct (default (VStr []) (dict_lookup (py "ccyNbr") rec));
    try discriminate; intros _; eexists; reflexivity.
Qed.

Lemma cmb_scan_raises (target_name : option pystr) (pre : list value)
    (item : value) (post : list value) (e : exn) :
  Forall (fun i => cmb_item_hit target_name i = Returns false) pre ->
  cmb_item_hit target_name item = Raises e ->
  cmb_scan target_name (pre ++ item :: post) = Raises e.
Proof.
  intros Hpre Hitem. induction Hpre as [|i pre Hi _ IH]; cbn [app cmb_scan].
  - rewrite Hitem. reflexivity.
  - rewrite Hi. exact IH.
Qed.

(** X8.  One element that cannot be tested (not an object, or an object
    whose name is null, a boolean or a number) ahead of every match makes
    the whole answer absent, whatever records follow it. *)
Theorem get_cmb_rates_untestable_record (w : World) (code name : pystr)
    (response : Response) (d : list (pystr * value)) (pre : list value)
    (item : value) (post : list value) :
  requests_get w cmb_url = Returns response ->
  status_code response = 200 ->
  json response = Returns (VDict d) ->
  dict_lookup (py "body") d = Some (VList (pre ++ item :: post)) ->
  currency_map !! code = Some name ->
  Forall (fun i => cmb_item_hit (Some name) i = Returns false) pre ->
  untestable item = true ->
  get_cmb_rates w code = Returns None.
Proof.
  intros Hget Hstatus Hjson Hbody Hname Hpre Hitem.
  rewrite (get_cmb_rates_records _ _ _ _ _ Hget Hstatus Hjson Hbody), Hname.
  destruct (cmb_item_hit_untestable name item Hitem) as [e He].
  rewrite (cmb_scan_raises _ _ _ _ _ Hpre He). reflexivity.
Qed.

Lemma get_cmb_rates_untestable_record_witness :
  get_cmb_rates (cmb_world (body_of [dollar_record; VStr euro; VDict euro_record]))
                (py "EUR")
  = Returns None.
Proof.
  apply (get_cmb_rates_untestable_record
           (cmb_world (body_of [dollar_record; VStr euro; VDict euro_record]))
           (py "EUR") euro
           (api (body_of [dollar_record; VStr euro; VDict euro_record]))
           [(py "returnCode", VStr (py "SUC0000"));
            (py "body", VList [dollar_record; VStr euro; VDict euro_record])]
           [dollar_record] (VStr euro) [VDict euro_record]);
    try reflexivity. repeat constructor.
Defined.

Lemma cmb_scan_some (target_name : option pystr) (items : list value)
    (q : QuotePair) :
  cmb_scan target_name items = Returns (Some q) ->
  exists rec, In (VDict rec) items
              /\ cmb_item_hit target_name (VDict rec) = Returns true
              /\ q = record_quote rec.
Proof.
  induction items as [|item items IH]; [discriminate|].
  cbn [cmb_scan].
  destruct (cmb_item_hit target_name item) as [[|]|e] eqn:Hhit;
    cbn [mbind result_bind]; [| |discriminate].
  - destruct item as [| | | | | |rec]; try discriminate Hhit.
    rewrite cmb_item_quote_record. cbn [mbind result_bind mret result_ret].
    intros [= <-]. exists rec. split; [left; reflexivity|]. split; [exact Hhit|reflexivity].
  - intros H. destruct (IH H) as (rec & Hin & Hrec & Hq).
    exists rec. split; [right; exact Hin|]. split; assumption.
Qed.

(** X9.  A quote of [get_cmb_rates] is never made up: the API answered
    200, and the quote holds the two rates (or N/A) of a record of the
    answer that passed the test of line 64. *)
Theorem get_cmb_rates_quote_origin (w : World) (code : pystr) (q : QuotePair) :
  get_cmb_rates w code = Returns (Some q) ->
  exists response records rec,
    requests_get w cmb_url = Returns response
    /\ status_code response = 200
    /\ cmb_records w = Returns records
    /\ In (VDict rec) records
    /\ cmb_item_hit (currency_map !! code) (VDict rec) = Returns true
    /\ q = record_quote rec.
Proof.
  unfold get_cmb_rates, cmb_records. intros H.
  destruct (requests_get w cmb_url) as [response|e]; [|discriminate H].
  cbn [mbind result_bind] in *.
  destruct (Z.eqb_spec (status_code response) 200) as [Hstatus|_];
    cbn [negb] in H; [|discriminate H].
  destruct (json response) as [data|e]; [|discriminate H].
  cbn [mbind result_bind] in *.
  destruct (py_in (Some (py "body")) data) as [[|]|e]; try discriminate H.
  cbn [mbind result_bind] in H.
  destruct (subscript data (py "body")) as [body|e]; [|discriminate H].
  cbn [mbind result_bind] in *.
  destruct (iterate body) as [records|e]; [|discriminate H].
  cbn [mbind result_bind] in H.
  destruct (cmb_scan (currency_map !! code) records) as [[q'|]|e] eqn:Hscan;
    try discriminate H.
  injection H as ->.
  destruct (cmb_scan_some _ _ _ Hscan) as (rec & Hin & Hhit & Hq).
  exists response, records, rec. repeat split; assumption || reflexivity.
Qed.

Lemma get_cmb_rates_quote_origin_witness :
  exists response records rec,
    requests_get (cmb_world (body_of [dollar_record; VDict euro_record])) cmb_url
    = Returns response
    /\ status_code response = 200
    /\ cmb_records (cmb_world (body_of [dollar_record; VDict euro_record]))
       = Returns records
    /\ In (VDict rec) records
    /\ cmb_item_hit (currency_map !! py "EUR") (VDict rec) = Returns true
    /\ {| spot_sell := VStr (py "828.1"); cash_sell := VFloat 830.5 |}
       = record_quote rec.
Proof.
  apply (get_cmb_rates_quote_origin
           (cmb_world (body_of [dollar_record; VDict euro_record])) (py "EUR")).
  reflexivity.
Defined.

End MerchantsBankAnswer.

(** ** The providers side by side *)

Section Isolation.

(** X10.  Each provider depends on the answer of its own upstream only:
    whatever happens to the other bank or to the time-series call leaves
    its result unchanged. *)
Theorem providers_isolated (w w' : World) (code : pystr) :
  (requests_get w boc_url = requests_get w' boc_url ->
   get_boc_rates w code = get_boc_rates w' code)
  /\ (requests_get w cmb_url = requests_get w' cmb_url ->
      get_cmb_rates w code = get_cmb_rates w' code).
Proof.
  split; intros H; [unfold get_boc_rates | unfold get_cmb_rates];
    rewrite H; reflexivity.
Qed.

Lemma providers_isolated_witness :
  get_boc_rates (live_world (Raises connection_error)) (py "EUR")
  = get_boc_rates (boc_world [header_row; dollar_row; euro_row]) (py "EUR")
  /\ get_cmb_rates (live_world (Returns [])) (py "USD")
     = get_cmb_rates (cmb_world (body_of [dollar_record])) (py "USD").
Proof.
  split.
  - apply (proj1 (providers_isolated (live_world (Raises connection_error))
                    (boc_world [header_row; dollar_row; euro_row]) (py "EUR"))).
    reflexivity.
  - apply (proj2 (providers_isolated (live_world (Returns []))
                    (cmb_world (body_of [dollar_record])) (py "USD"))).
    reflexivity.
Defined.

End Isolation.

(** ** The trend figures, continued *)

Section TrendEdges.

Local Open Scope float_scope.

(** X11.  Only the first and the last price count: two non-empty series
    that agree on them get the same figures, whatever lies in between and
    whatever the timestamps are. *)
Theorem trend_depends_on_ends (s0 s0' : Sample) (rest rest' : DataFrame) :
  Close s0 = Close s0' ->
  Close (List.last rest s0) = Close (List.last rest' s0') ->
  compute_trend (s0 :: rest) = compute_trend (s0' :: rest').
Proof.
  intros Hfirst Hlast. rewrite !compute_trend_cons. cbv zeta.
  rewrite Hfirst, Hlast. reflexivity.
Qed.

Lemma trend_depends_on_ends_witness :
  compute_trend [sample 0 100; sample 60 105]
  = compute_trend [sample 7 100; sample 8 250; sample 9 3; sample 10 105].
Proof.
  apply (trend_depends_on_ends (sample 0 100) (sample 7 100) [sample 60 105]
           [sample 8 250; sample 9 3; sample 10 105]); reflexivity.
Defined.

(** X12.  Lines 120-123 never raise, neither an index error nor a division
    by zero, and the percentage is the integer 0 exactly when the frame is
    empty or its first price equals 0. *)
Theorem trend_never_raises (hist : DataFrame) :
  exists t, compute_trend hist = Returns t
    /\ (delta_percent t = Int 0 <->
        match hist with
        | [] => True
        | s0 :: _ => PrimFloat.eqb (Close s0) 0 = true
        end).
Proof.
  destruct hist as [|s0 rest].
  - eexists. split; [reflexivity|]. split; [trivial | reflexivity].
  - rewrite compute_trend_cons. cbv zeta. eexists. split; [reflexivity|].
    cbn [delta_percent]. destruct (PrimFloat.eqb (Close s0) 0); cbn [negb].
    + split; reflexivity.
    + split; discriminate.
Qed.

End TrendEdges.

(** ** The snapshot, continued *)

Section SnapshotParts.

(** X13.  Once the time-series call has returned a frame, the snapshot is
    built and holds that very frame, what each provider returned and the
    figures of the frame: a failing bank never stops it. *)
Theorem snapshot_components (w : World) (currency range : pystr)
    (info r : pystr * pystr) (hist : DataFrame) :
  currencies !! currency = Some info ->
  time_ranges !! range = Some r ->
  yf_history w (fst info) (fst r) (snd r) = Returns hist ->
  exists boc cmb t,
    get_boc_rates w currency = Returns boc
    /\ get_cmb_rates w currency = Returns cmb
    /\ compute_trend hist = Returns t
    /\ build_snapshot w currency range
       = Returns {| hist_data := hist; boc_rate := boc; cmb_rate := cmb;
                    trend := t |}.
Proof.
  intros Hc Hr Hh.
  destruct (get_boc_rates_returns w currency) as [boc Hboc].
  destruct (get_cmb_rates_returns w currency) as [cmb Hcmb].
  destruct (compute_trend_returns hist) as [t Ht].
  exists boc, cmb, t. repeat split; try assumption.
  unfold build_snapshot, table_getitem, get_history.
  rewrite Hc, Hr. cbn [mbind result_bind mret result_ret]. rewrite Hh.
  cbn [mbind result_bind]. rewrite Hboc. cbn [mbind result_bind]. rewrite Hcmb.
  cbn [mbind result_bind mret result_ret]. rewrite Ht. reflexivity.
Qed.

Lemma snapshot_components_witness :
  exists boc cmb t,
    get_boc_rates (live_world (Returns [sample 0 100; sample 60 105])) (py "EUR")
    = Returns boc
    /\ get_cmb_rates (live_world (Returns [sample 0 100; sample 60 105])) (py "EUR")
       = Returns cmb
    /\ compute_trend [sample 0 100; sample 60 105] = Returns t
    /\ build_snapshot (live_world (Returns [sample 0 100; sample 60 105]))
                      (py "EUR") (py "48h")
       = Returns {| hist_data := [sample 0 100; sample 60 105]; boc_rate := boc;
                    cmb_rate := cmb; trend := t |}.
Proof.
  apply (snapshot_components (live_world (Returns [sample 0 100; sample 60 105]))
           (py "EUR") (py "48h") (py "EURCNY=X", py "Euro") (py "5d", py "2m"));
    reflexivity.
Defined.

(** X14.  An exception of the time-series call comes out of
    [build_snapshot] unchanged, for every currency and range of the two
    tables: nothing on the way catches it. *)
Theorem history_exception_propagates (w : World) (currency range : pystr)
    (info r : pystr * pystr) (e : exn) :
  currencies !! currency = Some info ->
  time_ranges !! range = Some r ->
  yf_history w (fst info) (fst r) (snd r) = Raises e ->
  get_history w (fst info) (fst r) (snd r) = Raises e
  /\ build_snapshot w currency range = Raises e.
Proof.
  intros Hc Hr Hh. split; [exact (get_history_propagates _ _ _ _ _ Hh)|].
  unfold build_snapshot, table_getitem, get_history.
  rewrite Hc, Hr. cbn [mbind result_bind mret result_ret]. rewrite Hh. reflexivity.
Qed.

Lemma history_exception_propagates_witness :
  get_history (live_world (Raises timeout)) (py "CNY=X") (py "1d") (py "1m")
  = Raises timeout
  /\ build_snapshot (live_world (Raises timeout)) (py "USD") (py "1h")
     = Raises timeout.
Proof.
  apply (history_exception_propagates (live_world (Raises timeout))
           (py "USD") (py "1h") (py "CNY=X", py "US Dollar") (py "1d", py "1m"));
    reflexivity.
Defined.

(** X15.  The sidebar offers exactly the currencies the bank fetcher has a
    name for: a code is a key of [currencies] if and only if it is a key of
    [currency_map]. *)
Theorem selectable_currencies_are_supported (code : pystr) :
  is_Some (currencies !! code) <-> is_Some (currency_map !! code).
Proof.
  unfold currencies, currency_map.
  rewrite !lookup_insert, !lookup_empty.
  repeat case_decide; split; intros [v Hv]; eauto; discriminate Hv.
Qed.

End SnapshotParts.

(** ** Missing prices *)

Section MissingPrices.

Local Open Scope float_scope.

Lemma sub_nan_r (x : float) : x - nan = nan.
Proof.
  rewrite <- (SF2Prim_Prim2SF (x - nan)), FloatAxioms.sub_spec.
  change (Prim2SF nan) with S754_nan. unfold SF64sub, SFsub.
  destruct (Prim2SF x); reflexivity.
Qed.

Lemma sub_nan_l (x : float) : nan - x = nan.
Proof.
  rewrite <- (SF2Prim_Prim2SF (nan - x)), FloatAxioms.sub_spec.
  change (Prim2SF nan) with S754_nan. reflexivity.
Qed.

Lemma div_nan_l (x : float) : nan / x = nan.
Proof.
  rewrite <- (SF2Prim_Prim2SF (nan / x)), FloatAxioms.div_spec.
  change (Prim2SF nan) with S754_nan. reflexivity.
Qed.

(** X16.  The guard of line 123 does not catch a missing price: when the
    first price is NaN, or the last one is NaN and the first one is not 0,
    the change and the percentage are NaN. *)
Theorem trend_of_missing_price (s0 : Sample) (rest : DataFrame) :
  Close s0 = nan
  \/ (Close (List.last rest s0) = nan /\ PrimFloat.eqb (Close s0) 0 = false) ->
  exists t, compute_trend (s0 :: rest) = Returns t
            /\ delta t = Float64 nan /\ delta_percent t = Float64 nan.
Proof.
  intros H. rewrite compute_trend_cons. cbv zeta. eexists. split; [reflexivity|].
  cbn [delta delta_percent Trend.sub to_float].
  destruct H as [H|[H Hne]].
  - rewrite H, sub_nan_r. split; reflexivity.
  - rewrite H, sub_nan_l, Hne. cbn [negb to_float]. rewrite div_nan_l.
    split; reflexivity.
Qed.

Lemma trend_of_missing_price_witness :
  exists t, compute_trend [sample 0 nan; sample 60 105] = Returns t
            /\ delta t = Float64 nan /\ delta_percent t = Float64 nan.
Proof.
  apply (trend_of_missing_price (sample 0 nan) [sample 60 105]).
  left. reflexivity.
Defined.

End MissingPrices.

(** ** The page: refresh and bank metrics *)

Section PageDisplay.

(** X17.  While the Auto Refresh box is ticked a run never gets to a
    snapshot, whatever the currency, the range and the upstreams; with the
    box cleared the run is [build_snapshot]. *)
Theorem ticked_box_builds_no_snapshot (w : World) (currency range : pystr) :
  (forall s, run_page w true currency range <> Returns s)
  /\ run_page w false currency range = build_snapshot w currency range.
Proof.
  unfold run_page, build_snapshot, table_getitem.
  destruct (currencies !! currency); cbn [mbind result_bind mret result_ret].
  - split; [discriminate | reflexivity].
  - split; [discriminate | reflexivity].
Qed.

Lemma join_is_not_NA (a b : pystr) : a ++ py " / " ++ b <> py "N/A".
Proof.
  destruct a as [|x [|y [|z a]]]; vm_compute; try discriminate.
  destruct a; discriminate.
Qed.

(** X18.  The Bank of China metric reads N/A exactly when the provider
    returned the absent marker; otherwise it reads the two stripped cell
    texts with " / " between them. *)
Theorem boc_metric_text (format : value -> pystr) (w : World) (code : pystr)
    (rate : option QuotePair) :
  (forall s, format (VStr s) = s) ->
  get_boc_rates w code = Returns rate ->
  (bank_val format rate = py "N/A" <-> rate = None)
  /\ forall q, rate = Some q ->
       exists spot cash,
         q = {| spot_sell := VStr spot; cash_sell := VStr cash |}
         /\ bank_val format rate = spot ++ py " / " ++ cash.
Proof.
  intros Hformat Hrate. destruct rate as [q|].
  - destruct (get_boc_rates_some_stripped _ _ _ Hrate) as (spot & cash & -> & _).
    cbn [bank_val spot_sell cash_sell]. rewrite !Hformat. split.
    + split; [|discriminate]. intros H. destruct (join_is_not_NA _ _ H).
    + intros q' [= <-]. exists spot, cash. split; reflexivity.
  - split; [split; reflexivity | discriminate].
Qed.

Lemma boc_metric_text_witness :
  bank_val format_str
           (Some {| spot_sell := VStr (py "827.72"); cash_sell := VStr (py "830.39") |})
  = py "827.72 / 830.39".
Proof.
  destruct (proj2 (boc_metric_text format_str
                     (boc_world [header_row; dollar_row; euro_row]) (py "EUR")
                     (Some {| spot_sell := VStr (py "827.72");
                              cash_sell := VStr (py "830.39") |})
                     (fun s => eq_refl) eq_refl) _ eq_refl)
    as (spot & cash & Hq & Hval).
  rewrite Hval. injection Hq as <- <-. reflexivity.
Defined.

End PageDisplay.

(** ** What counts as a column *)

Section Columns.

(** In a row made of [td] cells with nothing nested in them, the columns
    of line 44 are the cells of the row. *)
Lemma find_all_td_plain_row (name : pystr) (cells : list PageElement) :
  Forall (fun c => plain_cell c = true) cells ->
  find_all (py "td") (Tag name cells) = cells.
Proof.
  unfold find_all. cbn [descendants]. intros H.
  induction H as [|c cells Hc _ IH]; [reflexivity|].
  cbn [flat_map app List.filter]. unfold plain_cell in Hc.
  apply andb_true_iff in Hc as [Htd Hbelow]. rewrite Htd, List.filter_app, IH.
  unfold find_all in Hbelow.
  destruct (List.filter (is_tag (py "td")) (descendants c));
    [reflexivity | discriminate Hbelow].
Qed.

(** In a row that holds a table, the cells of that table count as well:
    this row has two cells of its own, line 44 finds five, and the answer
    is read from the 4th and 5th of them. *)
Example nested_cells_are_counted :
  length (find_all (py "td") nested_cells_row) = 5%nat
  /\ get_boc_rates (boc_world [nested_cells_row]) (py "EUR")
     = Returns (Some {| spot_sell := VStr (py "2"); cash_sell := VStr (py "3") |}).
Proof. split; reflexivity. Qed.

End Columns.
